(** * Citation formatting of the arXiv MCP server

    A shallow embedding of [arxiv_mcp_server/tools/citations.py]:
    [format_authors], [generate_citation] and the request handler
    [handle_citation], with the properties of the citation engine
    stated and proved against them.

    Conventions of the embedding.
    - A Python [str] is a Rocq [string]; its characters are read as the
      code points 0..255, and [py_lower], [py_isspace], [py_split] and the
      JSON escaping are Python's on that range.
    - A Python [int] is a [Z].
    - A call that may raise returns a [PyResult]: [Ret v] or [Raise e].
    - The wall clock read by the Harvard style is the parameter [now];
      the arXiv client is the parameter [provider].
    - [handle_citation] is a coroutine without an [await]: it runs to its
      end once started, and is embedded as a function.  It returns the
      events it causes - a request to the client, a call of the renderer,
      a line in the error log - next to its outcome. *)

From Stdlib Require Import ZArith Ascii String List Bool Lia.
From Stdlib Require Import Numbers.DecimalString Numbers.DecimalZ.
From stdpp Require Import base option strings gmap.
Import ListNotations.

Open Scope string_scope.
Open Scope Z_scope.

(** ** Python text operations *)

Module PyStr.

(** The code point of a character. *)
Definition ord (c : ascii) : N := N_of_ascii c.

Definition in_range (lo hi : N) (c : ascii) : bool :=
  ((lo <=? ord c) && (ord c <=? hi))%N.

(** [str.isspace] for one character: TAB..CR, FS..US, SPACE, NEL, NBSP. *)
Definition py_isspace (c : ascii) : bool :=
  in_range 9 13 c || in_range 28 32 c
  || (ord c =? 133)%N || (ord c =? 160)%N.

(** [str.lower] for one character: A..Z, and the Latin-1 capitals
    U+00C0..U+00DE without the multiplication sign U+00D7. *)
Definition lower_char (c : ascii) : ascii :=
  if in_range 65 90 c
     || (in_range 192 222 c && negb (ord c =? 215)%N)
  then ascii_of_N (ord c + 32)
  else c.

Fixpoint py_lower (s : string) : string :=
  match s with
  | EmptyString => EmptyString
  | String c s' => String (lower_char c) (py_lower s')
  end.

(** [sep.join(parts)]. *)
Fixpoint join (sep : string) (parts : list string) : string :=
  match parts with
  | [] => EmptyString
  | [x] => x
  | x :: rest => x +:+ sep +:+ join sep rest
  end.

(** [s.split()] without argument: the maximal runs of characters that
    are not whitespace.  [cur] is the run being read. *)
Fixpoint split_from (cur : string) (s : string) : list string :=
  match s with
  | EmptyString => if String.eqb cur EmptyString then [] else [cur]
  | String c s' =>
      if py_isspace c
      then (if String.eqb cur EmptyString then split_from EmptyString s'
            else cur :: split_from EmptyString s')
      else split_from (cur +:+ String c EmptyString) s'
  end.

Definition py_split (s : string) : list string := split_from EmptyString s.

(** [str(n)] for an int. *)
Definition str_of_int (n : Z) : string :=
  NilZero.string_of_int (Z.to_int n).

(** [needle in hay]. *)
Fixpoint contains (needle hay : string) : bool :=
  String.prefix needle hay
  || match hay with
     | EmptyString => false
     | String _ hay' => contains needle hay'
     end.

End PyStr.
Import PyStr.

(** ** Exceptions and results *)

(** The exception classes that occur in or around the module.  The last
    three derive from [BaseException] only. *)
Inductive ExcClass : Type :=
| StopIteration
| KeyError
| IndexError
| AttributeError
| UnboundLocalError
| OtherException (name : string)
| KeyboardInterrupt
| SystemExit
| GeneratorExit.

(** [issubclass(c, Exception)]. *)
Definition is_Exception (c : ExcClass) : bool :=
  match c with
  | KeyboardInterrupt | SystemExit | GeneratorExit => false
  | _ => true
  end.

Definition is_StopIteration (c : ExcClass) : bool :=
  match c with
  | StopIteration => true
  | _ => false
  end.

(** A raised exception: its class and [str(e)]. *)
Record Exn : Type := mkExn { exn_class : ExcClass; exn_str : string }.

Inductive PyResult (A : Type) : Type :=
| Ret (a : A)
| Raise (e : Exn).
Arguments Ret {A} a.
Arguments Raise {A} e.

(** Sequencing: the first exception raised ends the computation.  With
    this instance, [x ← m; k] is stdpp's notation for it. *)
#[global] Instance PyResult_bind : MBind PyResult :=
  fun A B (k : A -> PyResult B) (m : PyResult A) =>
    match m with
    | Ret a => k a
    | Raise e => Raise e
    end.

(** ** Paper metadata *)

Inductive Month : Type :=
| January | February | March | April | May | June
| July | August | September | October | November | December.

(** [strftime("%B")]. *)
Definition month_name (m : Month) : string :=
  match m with
  | January => "January" | February => "February" | March => "March"
  | April => "April" | May => "May" | June => "June"
  | July => "July" | August => "August" | September => "September"
  | October => "October" | November => "November" | December => "December"
  end.

Record datetime : Type := mkDate { year : Z; month : Month; day : Z }.

(** [strftime("%d")]: the day of the month on two digits. *)
Definition day_2d (d : Z) : string :=
  if d <? 10 then "0" +:+ str_of_int d else str_of_int d.

(** [strftime("%d %B %Y")]. *)
Definition strftime_dBY (t : datetime) : string :=
  day_2d (day t) +:+ " " +:+ month_name (month t) +:+ " "
  +:+ str_of_int (year t).

(** What [generate_citation] reads of an [arxiv.Result]. *)
Record Paper : Type := mkPaper {
  title : string;
  authors : list string;      (* [author.name for author in paper.authors] *)
  published : datetime;
  entry_id : string;
  short_id : string           (* [paper.get_short_id()] *)
}.

(** ** The author formatter *)

Definition CITATION_FORMATS : list string :=
  ["apa"; "mla"; "chicago"; "harvard"; "ieee"; "bibtex"].

Definition len {A : Type} (l : list A) : Z := Z.of_nat (Datatypes.length l).

(** [authors[i]] for an index the guards keep in range. *)
Definition item (l : list string) (i : nat) : string := List.nth i l EmptyString.

Definition format_authors (authors : list string) (format_type : string)
  : string :=
  match authors with
  | [] => EmptyString
  | _ =>
    if String.eqb format_type "apa" then
      if len authors =? 1 then item authors 0
      else if len authors =? 2 then
        item authors 0 +:+ " & " +:+ item authors 1
      else item authors 0 +:+ " et al."
    else if String.eqb format_type "mla" then
      if len authors =? 1 then item authors 0
      else if len authors =? 2 then
        item authors 0 +:+ ", and " +:+ item authors 1
      else item authors 0 +:+ " et al."
    else if String.eqb format_type "chicago" then
      if len authors =? 1 then item authors 0
      else if len authors =? 2 then
        item authors 0 +:+ " and " +:+ item authors 1
      else if len authors <=? 7 then
        join ", " (List.removelast authors) +:+ ", and " +:+ List.last authors EmptyString
      else item authors 0 +:+ " et al."
    else if String.eqb format_type "harvard" then
      if len authors =? 1 then item authors 0
      else if len authors =? 2 then
        item authors 0 +:+ " and " +:+ item authors 1
      else if len authors =? 3 then
        item authors 0 +:+ ", " +:+ item authors 1 +:+ " and "
        +:+ item authors 2
      else item authors 0 +:+ " et al."
    else if String.eqb format_type "ieee" then
      if len authors =? 1 then item authors 0
      else if len authors =? 2 then
        item authors 0 +:+ " and " +:+ item authors 1
      else join ", " (List.removelast authors) +:+ ", and " +:+ List.last authors EmptyString
    else join ", " authors
  end.

(** ** The renderer *)

Definition nl : string := String (ascii_of_nat 10) EmptyString.
Definition dq : string := String (ascii_of_nat 34) EmptyString.

(** [l[-1]]. *)
Definition last_item (l : list string) : PyResult string :=
  match l with
  | [] => Raise (mkExn IndexError "list index out of range")
  | _ => Ret (List.last l EmptyString)
  end.

(** [authors[0].split()[-1] if authors else "Unknown"]. *)
Definition first_author_last (authors : list string) : PyResult string :=
  match authors with
  | [] => Ret "Unknown"
  | a :: _ => last_item (py_split a)
  end.

Definition bibtex_entry (p : Paper) (key_name : string) : string :=
  let yr := str_of_int (year (published p)) in
  "@article{" +:+ py_lower key_name +:+ yr +:+ "," +:+ nl
  +:+ "  author = {" +:+ join " and " (authors p) +:+ "}," +:+ nl
  +:+ "  title = {" +:+ title p +:+ "}," +:+ nl
  +:+ "  journal = {arXiv preprint arXiv:" +:+ short_id p +:+ "}," +:+ nl
  +:+ "  year = {" +:+ yr +:+ "}," +:+ nl
  +:+ "  url = {" +:+ entry_id p +:+ "}" +:+ nl
  +:+ "}".

Definition generate_citation (now : datetime) (paper : Paper)
  (format_type : string) : PyResult string :=
  let title := title paper in
  let authors := authors paper in
  let year := str_of_int (year (published paper)) in
  let month := month_name (month (published paper)) in
  let url := entry_id paper in
  let arxiv_id := short_id paper in
  let formatted_authors := format_authors authors format_type in
  if String.eqb format_type "apa" then
    Ret (formatted_authors +:+ " (" +:+ year +:+ "). " +:+ title
         +:+ ". arXiv preprint arXiv:" +:+ arxiv_id +:+ ". " +:+ url)
  else if String.eqb format_type "mla" then
    Ret (formatted_authors +:+ ". " +:+ dq +:+ title +:+ "." +:+ dq
         +:+ " arXiv, " +:+ month +:+ " " +:+ year +:+ ", " +:+ url +:+ ".")
  else if String.eqb format_type "chicago" then
    Ret (formatted_authors +:+ ". " +:+ dq +:+ title +:+ "." +:+ dq
         +:+ " arXiv preprint arXiv:" +:+ arxiv_id +:+ " (" +:+ year
         +:+ "). " +:+ url +:+ ".")
  else if String.eqb format_type "harvard" then
    Ret (formatted_authors +:+ ", " +:+ year +:+ ". " +:+ title
         +:+ ". arXiv:" +:+ arxiv_id +:+ ". Available at: " +:+ url
         +:+ " [Accessed " +:+ strftime_dBY now +:+ "].")
  else if String.eqb format_type "ieee" then
    Ret (formatted_authors +:+ ", " +:+ dq +:+ title +:+ "," +:+ dq
         +:+ " arXiv:" +:+ arxiv_id +:+ ", " +:+ year +:+ ".")
  else if String.eqb format_type "bibtex" then
    key_name ← first_author_last authors;
    Ret (bibtex_entry paper key_name)
  else
    Ret (formatted_authors +:+ ". " +:+ title +:+ ". arXiv:" +:+ arxiv_id
         +:+ ", " +:+ year +:+ ". " +:+ url).

(** The paper of the test fixture. *)
Definition zhang_authors : list string :=
  ["Zhang, Chiyuan"; "Bengio, Samy"; "Hardt, Moritz"; "Recht, Benjamin";
   "Vinyals, Oriol"].

Definition zhang_paper (url : string) (m : Month) (d : Z) : Paper :=
  {| title := "Understanding Deep Learning Requires Rethinking Generalization";
     authors := zhang_authors;
     published := mkDate 2017 m d;
     entry_id := url;
     short_id := "1611.03530" |}.

Definition fixture_paper : Paper :=
  zhang_paper "http://arxiv.org/abs/1611.03530v2" February 15.

Definition a_clock : datetime := mkDate 2026 November 4.

(** ** JSON text

    [json.dumps] with its defaults: [ensure_ascii=True] and the separators
    [", "] and [": "]. *)

Definition bs : string := String (ascii_of_nat 92) EmptyString.

Definition hex_digit (n : N) : ascii :=
  if (n <? 10)%N then ascii_of_N (48 + n) else ascii_of_N (87 + n).

(** The escape of one character: the short escapes of [ESCAPE_DCT], the
    character itself from the space to the tilde, and a [u00XX] escape
    for the rest. *)
Definition json_escape_char (c : ascii) : string :=
  let n := ord c in
  if (n =? 34)%N then bs +:+ dq
  else if (n =? 92)%N then bs +:+ bs
  else if (n =? 10)%N then bs +:+ "n"
  else if (n =? 13)%N then bs +:+ "r"
  else if (n =? 9)%N then bs +:+ "t"
  else if (n =? 8)%N then bs +:+ "b"
  else if (n =? 12)%N then bs +:+ "f"
  else if in_range 32 126 c then String c EmptyString
  else bs +:+ "u00" +:+ String (hex_digit (n / 16)) EmptyString
       +:+ String (hex_digit (n mod 16)) EmptyString.

Fixpoint json_escape (s : string) : string :=
  match s with
  | EmptyString => EmptyString
  | String c s' => json_escape_char c +:+ json_escape s'
  end.

Definition json_string (s : string) : string :=
  dq +:+ json_escape s +:+ dq.

(** The values a request carries, as far as the embedding goes: the JSON
    scalars without the floats.  Lists and objects are left out. *)
Inductive PyVal : Type :=
| VStr (s : string)
| VInt (n : Z)
| VBool (b : bool)
| VNone.

Definition json_value (v : PyVal) : string :=
  match v with
  | VStr s => json_string s
  | VInt n => str_of_int n
  | VBool true => "true"
  | VBool false => "false"
  | VNone => "null"
  end.

(** A dict literal, in the order its keys are written. *)
Definition PyDict : Type := list (string * PyVal).

Definition json_member (kv : string * PyVal) : string :=
  json_string (fst kv) +:+ ": " +:+ json_value (snd kv).

Definition json_dumps (d : PyDict) : string :=
  "{" +:+ join ", " (map json_member d) +:+ "}".

(** [str(v)], which is also what an f-string writes for [{v}]. *)
Definition py_str (v : PyVal) : string :=
  match v with
  | VStr s => s
  | VInt n => str_of_int n
  | VBool true => "True"
  | VBool false => "False"
  | VNone => "None"
  end.

Definition type_name (v : PyVal) : string :=
  match v with
  | VStr _ => "str"
  | VInt _ => "int"
  | VBool _ => "bool"
  | VNone => "NoneType"
  end.

(** [v.lower()]: only a [str] has the method. *)
Definition lower_method (v : PyVal) : PyResult string :=
  match v with
  | VStr s => Ret (py_lower s)
  | _ => Raise (mkExn AttributeError
                  ("'" +:+ type_name v
                   +:+ "' object has no attribute 'lower'"))
  end.

(** [arguments[key]] for a key written without quote or escape. *)
Definition getitem (arguments : gmap string PyVal) (key : string)
  : PyResult PyVal :=
  match arguments !! key with
  | Some v => Ret v
  | None => Raise (mkExn KeyError ("'" +:+ key +:+ "'"))
  end.

(** [arguments.get(key, dflt)]. *)
Definition dict_get (arguments : gmap string PyVal) (key : string)
  (dflt : PyVal) : PyVal :=
  default dflt (arguments !! key).

(** ** The request handler *)

Record TextContent : Type := mkText { type_ : string; text : string }.

(** What the handler does besides returning: it asks the arXiv client
    for a paper, calls the renderer, and writes to the error log. *)
Inductive Event : Type :=
| EvFetch (paper_id : PyVal)
| EvRender (paper : Paper) (format_type : string)
| EvLogError (msg : string).

(** A computation of the handler: the events so far and the outcome. *)
Definition Run (A : Type) : Type := list Event * PyResult A.

#[global] Instance Run_ret : MRet Run := fun A (a : A) => ([], Ret a).

#[global] Instance Run_bind : MBind Run :=
  fun A B (k : A -> Run B) (m : Run A) =>
    match m with
    | (tr, Ret a) => let (tr', r) := k a in ((tr ++ tr')%list, r)
    | (tr, Raise e) => (tr, Raise e)
    end.

Definition lift {A : Type} (r : PyResult A) : Run A := ([], r).
Definition emit (ev : Event) : Run unit := ([ev], Ret tt).

(** [try: body  except ...: handler]. *)
Definition try_except {A : Type} (body : Run A) (handler : Exn -> Run A)
  : Run A :=
  match body with
  | (tr, Ret a) => (tr, Ret a)
  | (tr, Raise e) => let (tr', r) := handler e in ((tr ++ tr')%list, r)
  end.

Definition error_envelope (message : string) : list TextContent :=
  [mkText "text"
     (json_dumps [("status", VStr "error"); ("message", VStr message)])].

Definition success_envelope (paper_id : PyVal) (format_type citation : string)
  : list TextContent :=
  [mkText "text"
     (json_dumps [("status", VStr "success"); ("paper_id", paper_id);
                  ("format", VStr format_type);
                  ("citation", VStr citation)])].

Definition unsupported_message (format_type : string) : string :=
  "Unsupported citation format: " +:+ format_type
  +:+ ". Supported formats: " +:+ join ", " CITATION_FORMATS.

Definition not_found_message (paper_id : PyVal) : string :=
  "Paper " +:+ py_str paper_id +:+ " not found on arXiv".

Definition generic_message (e : Exn) : string := "Error: " +:+ exn_str e.

Section Handler.

(** [next(arxiv.Client().results(arxiv.Search(id_list=[paper_id])))]:
    a paper, [StopIteration] when there is none, or whatever else the
    client raises. *)
Variable provider : PyVal -> PyResult Paper.

(** [datetime.now()]. *)
Variable now : datetime.

Variable arguments : gmap string PyVal.

Definition in_formats (format_type : string) : bool :=
  existsb (String.eqb format_type) CITATION_FORMATS.

(** The [try] body from the line after [paper_id] is bound. *)
Definition after_paper_id (paper_id : PyVal) : Run (list TextContent) :=
  format_type ← lift (lower_method
                        (dict_get arguments "format" (VStr "apa")));
  if negb (in_formats format_type) then
    mret (error_envelope (unsupported_message format_type))
  else
    _ ← emit (EvFetch paper_id);
    paper ← lift (provider paper_id);
    _ ← emit (EvRender paper format_type);
    citation ← lift (generate_citation now paper format_type);
    mret (success_envelope paper_id format_type citation).

(** The two [except] clauses.  [paper_id] is [None] while the local
    variable is not bound yet. *)
Definition except_clauses (paper_id : option PyVal) (e : Exn)
  : Run (list TextContent) :=
  if is_StopIteration (exn_class e) then
    match paper_id with
    | Some pid => mret (error_envelope (not_found_message pid))
    | None =>
        lift (Raise (mkExn UnboundLocalError
          "cannot access local variable 'paper_id' where it is not associated with a value"))
    end
  else if is_Exception (exn_class e) then
    _ ← emit (EvLogError ("Citation error: " +:+ exn_str e));
    mret (error_envelope (generic_message e))
  else lift (Raise e).

Definition handle_citation : Run (list TextContent) :=
  match getitem arguments "paper_id" with
  | Raise e => except_clauses None e
  | Ret paper_id =>
      try_except (after_paper_id paper_id) (except_clauses (Some paper_id))
  end.

End Handler.

Definition fixture_provider (v : PyVal) : PyResult Paper :=
  match v with
  | VStr "1611.03530" => Ret fixture_paper
  | _ => Raise (mkExn StopIteration EmptyString)
  end.

Definition args_of (l : list (string * PyVal)) : gmap string PyVal :=
  list_to_map l.

(** ** Reading JSON text

    [json.loads] on the texts the handler can write: one object whose
    values are strings, integers, [true], [false] or [null].  Any other
    text, well-formed JSON or not, is answered [None]; a text that is
    read is a JSON object, and is read as Python reads it. *)

Definition is_json_ws (c : ascii) : bool :=
  (ord c =? 32)%N || (ord c =? 9)%N || (ord c =? 10)%N || (ord c =? 13)%N.

Fixpoint skip_ws (s : string) : string :=
  match s with
  | EmptyString => EmptyString
  | String c s' => if is_json_ws c then skip_ws s' else s
  end.

Definition hex_value (c : ascii) : option N :=
  if in_range 48 57 c then Some (ord c - 48)%N
  else if in_range 97 102 c then Some (ord c - 87)%N
  else if in_range 65 70 c then Some (ord c - 55)%N
  else None.

Definition hex4 (a b c d : ascii) : option N :=
  x ← hex_value a; y ← hex_value b; z ← hex_value c; w ← hex_value d;
  Some (((x * 16 + y) * 16 + z) * 16 + w)%N.

(** The character written by a backslash and [c]. *)
Definition unescape (c : ascii) : option ascii :=
  let n := ord c in
  if (n =? 34)%N || (n =? 92)%N || (n =? 47)%N then Some c
  else if (n =? 98)%N then Some (ascii_of_N 8)
  else if (n =? 102)%N then Some (ascii_of_N 12)
  else if (n =? 110)%N then Some (ascii_of_N 10)
  else if (n =? 114)%N then Some (ascii_of_N 13)
  else if (n =? 116)%N then Some (ascii_of_N 9)
  else None.

Definition push (c : ascii) (r : option (string * string))
  : option (string * string) :=
  match r with
  | Some (s, rest) => Some (String c s, rest)
  | None => None
  end.

(** A string literal from the character after its opening quote: the
    string it denotes and the text after its closing quote. *)
Fixpoint scan_string (s : string) : option (string * string) :=
  match s with
  | EmptyString => None
  | String c s1 =>
      if (ord c =? 34)%N then Some (EmptyString, s1)
      else if (ord c =? 92)%N then
        match s1 with
        | EmptyString => None
        | String e s2 =>
            if (ord e =? 117)%N then
              match s2 with
              | String h1 (String h2 (String h3 (String h4 s3))) =>
                  match hex4 h1 h2 h3 h4 with
                  | Some n =>
                      if (n <? 256)%N then push (ascii_of_N n) (scan_string s3)
                      else None
                  | None => None
                  end
              | _ => None
              end
            else
              match unescape e with
              | Some ch => push ch (scan_string s2)
              | None => None
              end
        end
      else if (ord c <? 32)%N then None
      else push c (scan_string s1)
  end.

Definition is_num_char (c : ascii) : bool :=
  in_range 48 57 c || (ord c =? 45)%N.

Fixpoint span_num (s : string) : string * string :=
  match s with
  | EmptyString => (EmptyString, EmptyString)
  | String c s' =>
      if is_num_char c
      then let (num, rest) := span_num s' in (String c num, rest)
      else (EmptyString, s)
  end.

(** An integer in the form [str] writes it. *)
Definition parse_int (s : string) : option (Z * string) :=
  let (num, rest) := span_num s in
  match NilZero.int_of_string num with
  | Some i =>
      if String.eqb (str_of_int (Z.of_int i)) num
      then Some (Z.of_int i, rest)
      else None
  | None => None
  end.

(** [s] without its prefix [p]. *)
Fixpoint strip_prefix (p s : string) : option string :=
  match p, s with
  | EmptyString, _ => Some s
  | String a p', String b s' =>
      if Ascii.eqb a b then strip_prefix p' s' else None
  | String _ _, EmptyString => None
  end.

Definition parse_value (s : string) : option (PyVal * string) :=
  match s with
  | EmptyString => None
  | String c s1 =>
      if is_num_char c then
        '(n, rest) ← parse_int s; Some (VInt n, rest)
      else if (ord c =? 34)%N then
        '(str, rest) ← scan_string s1; Some (VStr str, rest)
      else
        match strip_prefix "true" s, strip_prefix "false" s,
              strip_prefix "null" s with
        | Some rest, _, _ => Some (VBool true, rest)
        | _, Some rest, _ => Some (VBool false, rest)
        | _, _, Some rest => Some (VNone, rest)
        | _, _, _ => None
        end
  end.

(** One [key: value] member. *)
Definition parse_member (s : string)
  : option ((string * PyVal) * string) :=
  match skip_ws s with
  | String c s1 =>
      if (ord c =? 34)%N then
        '(key, r1) ← scan_string s1;
        match skip_ws r1 with
        | String c2 r2 =>
            if (ord c2 =? 58)%N then
              '(v, r3) ← parse_value (skip_ws r2); Some ((key, v), r3)
            else None
        | EmptyString => None
        end
      else None
  | EmptyString => None
  end.

(** The members up to the closing brace; [fuel] bounds their number. *)
Fixpoint parse_members (fuel : nat) (s : string)
  : option (PyDict * string) :=
  match fuel with
  | O => None
  | S fuel' =>
      '(kv, r) ← parse_member s;
      match skip_ws r with
      | String c r' =>
          if (ord c =? 44)%N then
            '(d, r2) ← parse_members fuel' r'; Some (kv :: d, r2)
          else if (ord c =? 125)%N then Some ([kv], r')
          else None
      | EmptyString => None
      end
  end.

Definition json_loads (s : string) : option PyDict :=
  match skip_ws s with
  | String c r =>
      if (ord c =? 123)%N then
        match skip_ws r with
        | String c' r' =>
            if (ord c' =? 125)%N then
              if String.eqb (skip_ws r') EmptyString then Some [] else None
            else
              '(d, rest) ← parse_members (String.length s) r;
              if String.eqb (skip_ws rest) EmptyString then Some d else None
        | EmptyString => None
        end
      else None
  | EmptyString => None
  end.

(** [d[key]] on the member list.  The first member with the key is
    taken; the objects the handler writes have no key twice. *)
Fixpoint dict_lookup (d : PyDict) (key : string) : option PyVal :=
  match d with
  | [] => None
  | (k, v) :: d' => if String.eqb k key then Some v else dict_lookup d' key
  end.

(** ** Predicates on text *)

Fixpoint all_chars (f : ascii -> bool) (s : string) : bool :=
  match s with
  | EmptyString => true
  | String c s' => f c && all_chars f s'
  end.

(** [s] is empty or its last character is whitespace. *)
Fixpoint ends_at_space (s : string) : bool :=
  match s with
  | EmptyString => true
  | String c EmptyString => py_isspace c
  | String _ s' => ends_at_space s'
  end.

Definition starts_clear (s : string) : bool :=
  match s with
  | EmptyString => true
  | String c _ => negb (is_num_char c)
  end.

(** The author list is empty, or the first author's name has a character
    that is not whitespace. *)
Definition first_author_named (authors : list string) : bool :=
  match authors with
  | [] => true
  | a :: _ => negb (all_chars py_isspace a)
  end.

(** [tok] is the last token of [name], which reads [pre tok post]: [tok]
    is not empty and has no whitespace, it starts the name or follows a
    whitespace character, and only whitespace follows it. *)
Definition last_token (name pre tok post : string) : Prop :=
  name = pre +:+ tok +:+ post
  /\ ends_at_space pre = true
  /\ tok <> EmptyString
  /\ all_chars (fun c => negb (py_isspace c)) tok = true
  /\ all_chars py_isspace post = true.

(** ** What the handler returns *)

(** The style of the request: [arguments.get("format", "apa").lower()]. *)
Definition requested_format (arguments : gmap string PyVal)
  : PyResult string :=
  lower_method (dict_get arguments "format" (VStr "apa")).

Definition error_object (message : string) : PyDict :=
  [("status", VStr "error"); ("message", VStr message)].

Definition success_object (paper_id : PyVal) (format_type citation : string)
  : PyDict :=
  [("status", VStr "success"); ("paper_id", paper_id);
   ("format", VStr format_type); ("citation", VStr citation)].

(** An item list is one text item whose text reads as the object [obj]. *)
Definition one_json_item (items : list TextContent) (obj : PyDict) : Prop :=
  exists t, items = [mkText "text" t] /\ json_loads t = Some obj.


(** The client raises nothing but exceptions derived from [Exception]. *)
Definition ordinary_failures (provider : PyVal -> PyResult Paper) : Prop :=
  forall v e, provider v = Raise e -> is_Exception (exn_class e) = true.

(** ** Papers, requests and clients of the examples *)

Definition zhang_author_line : string :=
  "author = {Zhang, Chiyuan and Bengio, Samy and Hardt, Moritz and Recht, Benjamin and Vinyals, Oriol}".

Definition eight_authors : list string :=
  ["Ada A"; "Ben B"; "Cy C"; "Di D"; "Ed E"; "Flo F"; "Gus G"; "Hal H"].

Definition eight_paper : Paper :=
  {| title := "T"; authors := eight_authors;
     published := mkDate 2020 May 5; entry_id := "u";
     short_id := "2005.00001" |}.

Definition no_author_paper : Paper :=
  {| title := "T"; authors := [];
     published := mkDate 2020 May 5; entry_id := "u";
     short_id := "2005.00001" |}.

Definition fixture_request : gmap string PyVal :=
  args_of [("paper_id", VStr "1611.03530"); ("format", VStr "bibtex")].


Definition unknown_id_request : gmap string PyVal :=
  args_of [("paper_id", VStr "non_existent_id")].

Definition no_id_request : gmap string PyVal :=
  args_of [("format", VStr "mla")].

Definition rate_limited_provider (v : PyVal) : PyResult Paper :=
  Raise (mkExn (OtherException "HTTPError") "Page request resulted in HTTP 429").

Definition interrupted_provider (v : PyVal) : PyResult Paper :=
  Raise (mkExn KeyboardInterrupt EmptyString).

Definition exiting_provider (v : PyVal) : PyResult Paper :=
  Raise (mkExn SystemExit "1").

(** ** The runs of the handler

    The eight ways a call of [handle_citation] can go, each with the
    events it causes and its outcome. *)

Inductive handler_run (provider : PyVal -> PyResult Paper) (now : datetime)
  (arguments : gmap string PyVal) : Run (list TextContent) -> Prop :=
| run_no_paper_id :
    arguments !! "paper_id" = None ->
    handler_run provider now arguments
      ([EvLogError "Citation error: 'paper_id'"],
       Ret (error_envelope "Error: 'paper_id'"))
| run_format_not_str (pid : PyVal) (e : Exn) :
    arguments !! "paper_id" = Some pid ->
    requested_format arguments = Raise e ->
    handler_run provider now arguments
      ([EvLogError ("Citation error: " +:+ exn_str e)],
       Ret (error_envelope (generic_message e)))
| run_unsupported (pid : PyVal) (f : string) :
    arguments !! "paper_id" = Some pid ->
    requested_format arguments = Ret f ->
    in_formats f = false ->
    handler_run provider now arguments
      ([], Ret (error_envelope (unsupported_message f)))
| run_not_found (pid : PyVal) (f : string) (e : Exn) :
    arguments !! "paper_id" = Some pid ->
    requested_format arguments = Ret f ->
    in_formats f = true ->
    provider pid = Raise e ->
    is_StopIteration (exn_class e) = true ->
    handler_run provider now arguments
      ([EvFetch pid], Ret (error_envelope (not_found_message pid)))
| run_client_failed (pid : PyVal) (f : string) (e : Exn) :
    arguments !! "paper_id" = Some pid ->
    requested_format arguments = Ret f ->
    in_formats f = true ->
    provider pid = Raise e ->
    is_StopIteration (exn_class e) = false ->
    is_Exception (exn_class e) = true ->
    handler_run provider now arguments
      ([EvFetch pid; EvLogError ("Citation error: " +:+ exn_str e)],
       Ret (error_envelope (generic_message e)))
| run_raised (pid : PyVal) (f : string) (e : Exn) :
    arguments !! "paper_id" = Some pid ->
    requested_format arguments = Ret f ->
    in_formats f = true ->
    provider pid = Raise e ->
    is_Exception (exn_class e) = false ->
    handler_run provider now arguments ([EvFetch pid], Raise e)
| run_render_failed (pid : PyVal) (f : string) (paper : Paper) (e : Exn) :
    arguments !! "paper_id" = Some pid ->
    requested_format arguments = Ret f ->
    in_formats f = true ->
    provider pid = Ret paper ->
    generate_citation now paper f = Raise e ->
    handler_run provider now arguments
      ([EvFetch pid; EvRender paper f;
        EvLogError ("Citation error: " +:+ exn_str e)],
       Ret (error_envelope (generic_message e)))
| run_success (pid : PyVal) (f : string) (paper : Paper) (citation : string) :
    arguments !! "paper_id" = Some pid ->
    requested_format arguments = Ret f ->
    in_formats f = true ->
    provider pid = Ret paper ->
    generate_citation now paper f = Ret citation ->
    handler_run provider now arguments
      ([EvFetch pid; EvRender paper f],
       Ret (success_envelope pid f citation)).

(** A character json.dumps writes as it is. *)
Definition printable (c : ascii) : bool := in_range 32 126 c.

Definition spaced_name_paper : Paper :=
  {| title := "T"; authors := ["  Ada   Lovelace  "; "Ben B"];
     published := mkDate 2020 May 5; entry_id := "u";
     short_id := "2005.00001" |}.

Definition blank_name_paper : Paper :=
  {| title := "T"; authors := [" "; "Ben B"];
     published := mkDate 2020 May 5; entry_id := "u";
     short_id := "2005.00001" |}.

Definition blank_name_provider (v : PyVal) : PyResult Paper :=
  Ret blank_name_paper.

Definition numeric_format_request : gmap string PyVal :=
  args_of [("paper_id", VStr "1611.03530"); ("format", VInt 3)].

Definition chicago_request : gmap string PyVal :=
  args_of [("paper_id", VStr "1611.03530"); ("format", VStr "Chicago")].

Definition accent_paper : Paper :=
  {| title := String (ascii_of_nat 201) "tude";
     authors := ["Ren" +:+ String (ascii_of_nat 233) " D"];
     published := mkDate 2020 May 5; entry_id := "u";
     short_id := "2005.00001" |}.

Definition accent_provider (v : PyVal) : PyResult Paper := Ret accent_paper.

(** * Facts about the text operations *)

Example py_split_ex :
  py_split "  Zhang,  Chiyuan " = ["Zhang,"; "Chiyuan"].
Proof. reflexivity. Qed.

Example py_lower_ex : py_lower "BibTeX-2" = "bibtex-2".
Proof. reflexivity. Qed.

Example str_of_int_ex : str_of_int 2017 = "2017" /\ str_of_int 0 = "0".
Proof. split; reflexivity. Qed.

Section TextFacts.

Lemma app_cons (c : ascii) (s t : string) :
  String c s +:+ t = String c (s +:+ t).
Proof. reflexivity. Qed.

Lemma app_nil_l (s : string) : EmptyString +:+ s = s.
Proof. reflexivity. Qed.

Lemma app_nil_r (s : string) : s +:+ EmptyString = s.
Proof. induction s as [|c s IH]; [reflexivity|]. now rewrite app_cons, IH. Qed.

Lemma app_assoc (s t u : string) : (s +:+ t) +:+ u = s +:+ (t +:+ u).
Proof.
  induction s as [|c s IH]; [reflexivity|].
  now rewrite !app_cons, IH.
Qed.

Lemma prefix_app (p s : string) : String.prefix p (p +:+ s) = true.
Proof.
  induction p as [|c p IH]; [now destruct s|].
  rewrite app_cons. cbn [String.prefix].
  destruct (ascii_dec c c) as [_|Hc]; [exact IH | now destruct Hc].
Qed.

Lemma contains_here (needle hay : string) :
  String.prefix needle hay = true -> contains needle hay = true.
Proof. intros H. destruct hay; cbn [contains]; now rewrite H. Qed.

Lemma contains_app_r (needle pre hay : string) :
  contains needle hay = true -> contains needle (pre +:+ hay) = true.
Proof.
  intros H. induction pre as [|c pre IH]; [exact H|].
  rewrite app_cons. cbn [contains]. rewrite IH. apply orb_true_r.
Qed.

(** A text that is written out around [needle] contains it. *)
Lemma contains_intro (needle pre post : string) :
  contains needle (pre +:+ needle +:+ post) = true.
Proof. apply contains_app_r, contains_here, prefix_app. Qed.

Lemma prefix_elim (needle hay : string) :
  String.prefix needle hay = true -> exists post, hay = needle +:+ post.
Proof.
  revert hay. induction needle as [|a needle IH]; intros hay H.
  - now exists hay.
  - destruct hay as [|b hay]; [discriminate|]. cbn [String.prefix] in H.
    destruct (ascii_dec a b) as [->|]; [|discriminate].
    destruct (IH _ H) as [post ->]. now exists post.
Qed.

Lemma contains_elim (needle hay : string) :
  contains needle hay = true ->
  exists pre post, hay = pre +:+ needle +:+ post.
Proof.
  induction hay as [|c hay IH]; cbn [contains]; intros H.
  - apply orb_true_iff in H as [H|H]; [|discriminate].
    destruct needle; [|discriminate].
    now exists EmptyString, EmptyString.
  - apply orb_true_iff in H as [H|H].
    + destruct (prefix_elim _ _ H) as [post Hp].
      exists EmptyString, post. exact Hp.
    + destruct (IH H) as (pre & post & ->).
      now exists (String c pre), post.
Qed.

(** Every part is written in the joined text. *)
Lemma join_contains (sep a : string) (parts : list string) :
  In a parts -> contains a (join sep parts) = true.
Proof.
  induction parts as [|x parts IH]; [intros []|].
  intros [->|Hin].
  - destruct parts as [|y parts]; cbn [join].
    + rewrite <- (app_nil_r a) at 2.
      apply (contains_intro a EmptyString EmptyString).
    + apply (contains_intro a EmptyString).
  - specialize (IH Hin). destruct parts as [|y parts]; [destruct Hin|].
    cbn [join]. cbn [join] in IH.
    apply contains_app_r, contains_app_r, IH.
Qed.

Lemma join_cons (sep x y : string) (rest : list string) :
  join sep (x :: y :: rest) = x +:+ sep +:+ join sep (y :: rest).
Proof. reflexivity. Qed.

End TextFacts.

(** ** Words of a name *)

Section SplitFacts.

Lemma split_from_spaces (cur s : string) :
  all_chars py_isspace s = true ->
  split_from cur s = if String.eqb cur EmptyString then [] else [cur].
Proof.
  revert cur. induction s as [|c s IH]; intros cur H; [reflexivity|].
  cbn [all_chars] in H. apply andb_true_iff in H as [Hc Hs].
  cbn [split_from]. rewrite Hc.
  destruct (String.eqb cur EmptyString); now rewrite IH.
Qed.

Lemma split_from_word (cur w s : string) :
  all_chars (fun c => negb (py_isspace c)) w = true ->
  split_from cur (w +:+ s) = split_from (cur +:+ w) s.
Proof.
  revert cur. induction w as [|c w IH]; intros cur H.
  - now rewrite app_nil_l, app_nil_r.
  - cbn [all_chars] in H. apply andb_true_iff in H as [Hc Hw].
    apply negb_true_iff in Hc.
    rewrite app_cons. cbn [split_from]. rewrite Hc, (IH _ Hw).
    now rewrite app_assoc.
Qed.

Lemma split_from_space (cur pre rest : string) (c : ascii) :
  py_isspace c = true ->
  split_from cur (pre +:+ String c rest)
  = (split_from cur pre ++ split_from EmptyString rest)%list.
Proof.
  intros Hc. revert cur. induction pre as [|a pre IH]; intros cur.
  - rewrite app_nil_l. cbn [split_from]. rewrite Hc.
    now destruct (String.eqb cur EmptyString).
  - rewrite app_cons. cbn [split_from].
    destruct (py_isspace a).
    + destruct (String.eqb cur EmptyString); now rewrite IH.
    + apply IH.
Qed.

Lemma ends_at_space_inv (s : string) :
  ends_at_space s = true ->
  s = EmptyString \/
  exists pre c, py_isspace c = true /\ s = pre +:+ String c EmptyString.
Proof.
  induction s as [|a s IH]; [now left|]. intros H. right.
  destruct s as [|b s].
  - now exists EmptyString, a.
  - destruct (IH H) as [Hs|(pre & c & Hc & Hs)]; [discriminate|].
    exists (String a pre), c. split; [exact Hc|]. now rewrite app_cons, <- Hs.
Qed.

(** The last word of a name, told without [split]: a run [tok] without
    whitespace, after the start of the name or a whitespace character,
    and followed by whitespace only. *)
Lemma py_split_last_word (pre tok post : string) :
  ends_at_space pre = true ->
  tok <> EmptyString ->
  all_chars (fun c => negb (py_isspace c)) tok = true ->
  all_chars py_isspace post = true ->
  exists before, py_split (pre +:+ tok +:+ post) = (before ++ [tok])%list.
Proof.
  intros Hpre Htok Hw Hpost.
  assert (Hlast : split_from EmptyString (tok +:+ post) = [tok]).
  { rewrite (split_from_word _ _ _ Hw), app_nil_l.
    rewrite (split_from_spaces _ _ Hpost).
    destruct (String.eqb_spec tok EmptyString); [contradiction|reflexivity]. }
  unfold py_split.
  destruct (ends_at_space_inv _ Hpre) as [->|(pre0 & c & Hc & ->)].
  - exists []. now rewrite app_nil_l.
  - exists (split_from EmptyString pre0).
    rewrite app_assoc, app_cons, app_nil_l.
    now rewrite (split_from_space _ _ _ _ Hc), Hlast.
Qed.

(** Every name has a last word or is blank. *)
Lemma last_word_exists (s : string) :
  all_chars py_isspace s = true
  \/ exists pre tok post,
      s = pre +:+ tok +:+ post
      /\ ends_at_space pre = true
      /\ tok <> EmptyString
      /\ all_chars (fun c => negb (py_isspace c)) tok = true
      /\ all_chars py_isspace post = true.
Proof.
  induction s as [|c s IH]; [now left|].
  destruct (py_isspace c) eqn:Hc.
  - destruct IH as [Hs|(pre & tok & post & -> & Hpre & Htok & Hw & Hpost)].
    + left. cbn [all_chars]. now rewrite Hc, Hs.
    + right. exists (String c pre), tok, post.
      split; [reflexivity|]. split; [|auto].
      destruct pre; [exact Hc|exact Hpre].
  - right.
    destruct IH as [Hs|(pre & tok & post & -> & Hpre & Htok & Hw & Hpost)].
    + exists EmptyString, (String c EmptyString), s.
      split; [reflexivity|]. split; [reflexivity|]. split; [discriminate|].
      split; [|exact Hs]. cbn [all_chars]. now rewrite Hc.
    + destruct pre as [|a pre].
      * exists EmptyString, (String c tok), post.
        split; [reflexivity|]. split; [reflexivity|]. split; [discriminate|].
        split; [|exact Hpost]. cbn [all_chars]. now rewrite Hc, Hw.
      * exists (String c (String a pre)), tok, post.
        split; [reflexivity|]. split; [exact Hpre|]. auto.
Qed.

(** A name without a word splits into nothing. *)
Lemma py_split_blank (s : string) :
  all_chars py_isspace s = true -> py_split s = [].
Proof. intros H. unfold py_split. now rewrite (split_from_spaces _ _ H). Qed.

End SplitFacts.

(** * The author formatter *)

Section AuthorFormatter.

(** The six styles are six different names, and [in_formats] accepts
    exactly them. *)
Lemma in_formats_iff (format_type : string) :
  in_formats format_type = true <-> In format_type CITATION_FORMATS.
Proof.
  unfold in_formats. rewrite existsb_exists. split.
  - intros (f & Hin & Heq). apply String.eqb_eq in Heq. now subst.
  - intros Hin. exists format_type. split; [exact Hin|apply String.eqb_refl].
Qed.

(** C8: for each of the six styles, and for any other style name as
    well, the author formatter turns the empty author list into the
    empty text. *)
Theorem format_authors_empty :
  Forall (fun style => format_authors [] style = EmptyString)
    CITATION_FORMATS
  /\ forall format_type, format_authors [] format_type = EmptyString.
Proof.
  split; [|reflexivity].
  repeat constructor.
Qed.

Lemma len_cons {A : Type} (x : A) (l : list A) : len (x :: l) = 1 + len l.
Proof. unfold len. cbn [Datatypes.length]. lia. Qed.

Lemma len_nonneg {A : Type} (l : list A) : 0 <= len l.
Proof. unfold len. lia. Qed.

(** C7: the Chicago author text is the name for one author, [X and Y]
    for two, the list joined by commas with [, and ] before the last
    author for three to seven authors, and [X et al.] from eight
    authors on. *)
Theorem format_authors_chicago (x y z : string) (init rest : list string) :
  format_authors [x] "chicago" = x
  /\ format_authors [x; y] "chicago" = x +:+ " and " +:+ y
  /\ (2 <= len init <= 6 ->
      format_authors (init ++ [z]) "chicago"
      = join ", " init +:+ ", and " +:+ z)
  /\ (7 <= len rest ->
      format_authors (x :: rest) "chicago" = x +:+ " et al.").
Proof.
  split; [reflexivity|]. split; [reflexivity|]. split.
  - intros [Hlo Hhi].
    destruct init as [|a [|b [|c [|d [|e [|f [|g more]]]]]]];
      try (cbv [len Datatypes.length] in Hlo; lia);
      try reflexivity.
    rewrite !len_cons in Hhi. pose proof (len_nonneg more). lia.
  - intros Hlen. unfold format_authors.
    cbn [String.eqb Ascii.eqb Bool.eqb]. rewrite len_cons.
    destruct (Z.eqb_spec (1 + len rest) 1); [lia|].
    destruct (Z.eqb_spec (1 + len rest) 2); [lia|].
    destruct (Z.leb_spec (1 + len rest) 7); [lia|].
    reflexivity.
Qed.

Lemma format_authors_chicago_witness :
  format_authors ["A"; "B"; "C"] "chicago" = "A, B, and C"
  /\ format_authors ["A"; "B"; "C"; "D"; "E"; "F"; "G"] "chicago"
     = "A, B, C, D, E, F, and G"
  /\ format_authors ["A"; "B"; "C"; "D"; "E"; "F"; "G"; "H"] "chicago"
     = "A et al.".
Proof.
  split; [|split].
  - apply (format_authors_chicago "A" "B" "C" ["A"; "B"] []).
    cbv [len Datatypes.length]. lia.
  - apply (format_authors_chicago "A" "B" "G"
             ["A"; "B"; "C"; "D"; "E"; "F"] []).
    cbv [len Datatypes.length]. lia.
  - apply (format_authors_chicago "A" "B" "C" []
             ["B"; "C"; "D"; "E"; "F"; "G"; "H"]).
    cbv [len Datatypes.length]. lia.
Defined.

End AuthorFormatter.

(** * The renderer *)

Section Renderer.

Lemma generate_citation_bibtex (now : datetime) (p : Paper) :
  generate_citation now p "bibtex"
  = key_name ← first_author_last (authors p); Ret (bibtex_entry p key_name).
Proof. reflexivity. Qed.

(** The BibTeX style renders unless the first author's name has no
    word, in which case [split()[-1]] raises. *)
Lemma first_author_last_blank (a : string) (rest : list string) :
  all_chars py_isspace a = true ->
  first_author_last (a :: rest)
  = Raise (mkExn IndexError "list index out of range").
Proof.
  intros H. cbn [first_author_last]. now rewrite (py_split_blank _ H).
Qed.

Lemma last_snoc (l : list string) (x d : string) :
  List.last (l ++ [x]) d = x.
Proof. apply List.last_last. Qed.

Lemma last_item_snoc (l : list string) (x : string) :
  last_item (l ++ [x]) = Ret x.
Proof.
  unfold last_item. rewrite last_snoc. now destruct l.
Qed.

(** C9: for every style name other than [harvard] - the five other
    styles, and the fallback form too - the rendering of a paper does
    not depend on the clock: two calls on the same paper and style,
    made at any two moments, return the same text. *)
Theorem generate_citation_deterministic
  (now1 now2 : datetime) (paper : Paper) (format_type : string) :
  format_type <> "harvard" ->
  generate_citation now1 paper format_type
  = generate_citation now2 paper format_type.
Proof.
  intros Hstyle. unfold generate_citation.
  destruct (String.eqb_spec format_type "harvard") as [Heq|_];
    [contradiction|].
  reflexivity.
Qed.

Lemma generate_citation_deterministic_witness :
  generate_citation (mkDate 2024 January 1) fixture_paper "chicago"
  = generate_citation (mkDate 2031 July 23) fixture_paper "chicago".
Proof.
  apply (generate_citation_deterministic
           (mkDate 2024 January 1) (mkDate 2031 July 23)
           fixture_paper "chicago").
  discriminate.
Defined.

(** The Harvard rendering does read the clock. *)
Example harvard_reads_clock :
  generate_citation (mkDate 2024 January 1) fixture_paper "harvard"
  <> generate_citation (mkDate 2031 July 23) fixture_paper "harvard".
Proof. vm_compute. discriminate. Qed.

(** C1, as the code has it: for the five authors, title, year 2017 and
    short id of the scenario, whatever the link, month and day, the
    BibTeX rendering begins with [@article{chiyuan2017,] - the last word
    of [Zhang, Chiyuan] is [Chiyuan] - and contains the author line with
    the five names joined by [ and ]. *)
Theorem bibtex_scenario (now : datetime) (url : string) (m : Month) (d : Z) :
  exists entry,
    generate_citation now (zhang_paper url m d) "bibtex" = Ret entry
    /\ String.prefix "@article{chiyuan2017," entry = true
    /\ contains zhang_author_line entry = true.
Proof.
  eexists. split; [reflexivity|]. split.
  - vm_compute. reflexivity.
  - vm_compute. reflexivity.
Qed.

(** C1, as the claim has it, fails on the paper of the test fixture:
    the entry does not begin with [@article{zhang2017,]. *)
Lemma bibtex_scenario_not_zhang2017 :
  ~ (exists entry,
       generate_citation a_clock fixture_paper "bibtex" = Ret entry
       /\ String.prefix "@article{zhang2017," entry = true
       /\ contains zhang_author_line entry = true).
Proof.
  intros (entry & Hgen & Hprefix & _).
  vm_compute in Hgen. injection Hgen as <-.
  vm_compute in Hprefix. discriminate.
Qed.

(** The BibTeX style returns an entry for every paper but one whose first
    author's name is blank. *)
Lemma bibtex_returns_or_blank (now : datetime) (p : Paper) :
  (exists entry, generate_citation now p "bibtex" = Ret entry)
  \/ (exists a rest,
        authors p = a :: rest
        /\ all_chars py_isspace a = true
        /\ generate_citation now p "bibtex"
           = Raise (mkExn IndexError "list index out of range")).
Proof.
  rewrite generate_citation_bibtex.
  destruct (authors p) as [|a rest] eqn:Hauthors.
  - left. eexists. reflexivity.
  - destruct (last_word_exists a)
      as [Hblank|(pre & tok & post & -> & Hpre & Htok & Hw & Hpost)].
    + right. exists a, rest. split; [reflexivity|]. split; [exact Hblank|].
      now rewrite (first_author_last_blank _ _ Hblank).
    + left. cbn [first_author_last].
      destruct (py_split_last_word pre tok post Hpre Htok Hw Hpost)
        as [before ->].
      rewrite last_item_snoc. eexists. reflexivity.
Qed.

(** C2, as the code has it: for every paper without authors or whose
    first author's name has a character that is not whitespace, the
    BibTeX style returns an entry; its second line is the [author] field,
    and the field is the whole author list in its order, joined by
    [ and ]: every author is written in it, whatever their number. *)
Theorem bibtex_author_field (now : datetime) (p : Paper) :
  first_author_named (authors p) = true ->
  (exists key tail,
      generate_citation now p "bibtex"
      = Ret ("@article{" +:+ key +:+ "," +:+ nl
             +:+ "  author = {" +:+ join " and " (authors p) +:+ "},"
             +:+ nl +:+ tail))
  /\ forall a, In a (authors p) ->
               contains a (join " and " (authors p)) = true.
Proof.
  intros Hnamed. split; [|intros a Hin; now apply join_contains].
  destruct (bibtex_returns_or_blank now p)
    as [[entry Hret]|(a & rest & Hauthors & Hblank & _)].
  - rewrite generate_citation_bibtex in *.
    destruct (first_author_last (authors p)) as [key_name|e];
      [|discriminate].
    unfold bibtex_entry. cbv zeta.
    exists (py_lower key_name +:+ str_of_int (year (published p))).
    eexists. rewrite (app_assoc (py_lower key_name)). reflexivity.
  - rewrite Hauthors in Hnamed. cbn [first_author_named] in Hnamed.
    rewrite Hblank in Hnamed. discriminate.
Qed.

Lemma bibtex_author_field_witness :
  exists key tail,
    generate_citation a_clock eight_paper "bibtex"
    = Ret ("@article{" +:+ key +:+ "," +:+ nl
           +:+ "  author = {" +:+ join " and " eight_authors +:+ "},"
           +:+ nl +:+ tail).
Proof.
  apply (bibtex_author_field a_clock eight_paper). reflexivity.
Defined.

(** C2, as the claim has it, fails on a paper whose first author's name
    is blank: the BibTeX style raises, and no entry with an [author]
    field is returned. *)
Lemma bibtex_blank_name_no_author_field :
  ~ (exists key tail,
        generate_citation a_clock blank_name_paper "bibtex"
        = Ret ("@article{" +:+ key +:+ "," +:+ nl
               +:+ "  author = {"
               +:+ join " and " (authors blank_name_paper) +:+ "},"
               +:+ nl +:+ tail)).
Proof.
  intros (key & tail & Hret).
  assert (Hraise : generate_citation a_clock blank_name_paper "bibtex"
                   = Raise (mkExn IndexError "list index out of range"))
    by reflexivity.
  rewrite Hraise in Hret. discriminate.
Qed.

(** With the same eight authors the Chicago style writes the first
    author only. *)
Example chicago_eight_authors :
  format_authors eight_authors "chicago" = "Ada A et al.".
Proof. reflexivity. Qed.

(** C3, as the code has it: when the first author's name has a character
    that is not whitespace, the name has a last token - a run [tok] of
    characters without whitespace that starts the name or follows a
    whitespace character, and that only whitespace follows - and the key
    of the BibTeX entry is that token in lower case followed by the year;
    without authors the key is [unknown] followed by the year. *)
Theorem bibtex_entry_key (now : datetime) (p : Paper) :
  (forall first rest,
      authors p = first :: rest ->
      all_chars py_isspace first = false ->
      (exists pre tok post, last_token first pre tok post)
      /\ forall pre tok post,
           last_token first pre tok post ->
           exists tail,
             generate_citation now p "bibtex"
             = Ret ("@article{" +:+ py_lower tok
                    +:+ str_of_int (year (published p)) +:+ "," +:+ nl
                    +:+ tail))
  /\ (authors p = [] ->
      exists tail,
        generate_citation now p "bibtex"
        = Ret ("@article{" +:+ "unknown"
               +:+ str_of_int (year (published p)) +:+ "," +:+ nl
               +:+ tail)).
Proof.
  rewrite generate_citation_bibtex. split.
  - intros first rest Hauthors Hnamed. split.
    + destruct (last_word_exists first)
        as [Hblank|(pre & tok & post & Heq & Hpre & Htok & Hword & Hpost)].
      * rewrite Hblank in Hnamed. discriminate.
      * exists pre, tok, post. unfold last_token. auto.
    + intros pre tok post (-> & Hpre & Htok & Hword & Hpost).
      rewrite Hauthors. cbn [first_author_last].
      destruct (py_split_last_word pre tok post Hpre Htok Hword Hpost)
        as [before ->].
      rewrite last_item_snoc. cbn [mbind PyResult_bind].
      unfold bibtex_entry. eexists. reflexivity.
  - intros ->. cbn [first_author_last mbind PyResult_bind].
    unfold bibtex_entry. eexists. reflexivity.
Qed.

Lemma bibtex_entry_key_witness :
  (exists tail,
      generate_citation a_clock fixture_paper "bibtex"
      = Ret ("@article{" +:+ "chiyuan" +:+ "2017" +:+ "," +:+ nl +:+ tail))
  /\ (exists tail,
      generate_citation a_clock no_author_paper "bibtex"
      = Ret ("@article{" +:+ "unknown" +:+ "2020" +:+ "," +:+ nl +:+ tail)).
Proof.
  split.
  - apply (proj2 (proj1 (bibtex_entry_key a_clock fixture_paper)
                    "Zhang, Chiyuan" (tl zhang_authors) eq_refl eq_refl)
             "Zhang, " "Chiyuan" EmptyString).
    unfold last_token. repeat split. discriminate.
  - apply (proj2 (bibtex_entry_key a_clock no_author_paper)). reflexivity.
Defined.

(** C3, as the claim has it, fails on a paper whose author list is not
    empty and whose first author's name is blank: the name has no token,
    the BibTeX style raises, and no entry, with whatever key, is
    returned. *)
Lemma bibtex_blank_name_no_key :
  authors blank_name_paper <> []
  /\ ~ (exists key tail,
          generate_citation a_clock blank_name_paper "bibtex"
          = Ret ("@article{" +:+ key +:+ "," +:+ nl +:+ tail)).
Proof.
  split; [discriminate|].
  intros (key & tail & Hret).
  assert (Hraise : generate_citation a_clock blank_name_paper "bibtex"
                   = Raise (mkExn IndexError "list index out of range"))
    by reflexivity.
  rewrite Hraise in Hret. discriminate.
Qed.

(** A first author whose name has no word leaves the entry without a
    key: the BibTeX style raises. *)
Example bibtex_blank_first_author :
  generate_citation a_clock
    {| title := "T"; authors := [" "; "Ben B"];
       published := mkDate 2020 May 5; entry_id := "u";
       short_id := "2005.00001" |} "bibtex"
  = Raise (mkExn IndexError "list index out of range").
Proof. reflexivity. Qed.

End Renderer.

(** * Writing and reading JSON *)

Section JsonRoundTrip.

Lemma scan_string_char (c : ascii) (t : string) :
  scan_string (json_escape_char c +:+ t) = push c (scan_string t).
Proof.
  destruct c as [[] [] [] [] [] [] [] []]; reflexivity.
Qed.

Lemma scan_string_escape (s rest : string) :
  scan_string (json_escape s +:+ dq +:+ rest) = Some (s, rest).
Proof.
  induction s as [|c s IH]; [reflexivity|].
  cbn [json_escape]. rewrite app_assoc, scan_string_char, IH. reflexivity.
Qed.

Lemma span_num_app (num rest : string) :
  all_chars is_num_char num = true ->
  starts_clear rest = true ->
  span_num (num +:+ rest) = (num, rest).
Proof.
  intros Hnum Hrest. induction num as [|c num IH].
  - rewrite app_nil_l. destruct rest as [|c rest]; [reflexivity|].
    cbn [span_num]. cbn [starts_clear] in Hrest.
    apply negb_true_iff in Hrest. now rewrite Hrest.
  - cbn [all_chars] in Hnum. apply andb_true_iff in Hnum as [Hc Hnum].
    rewrite app_cons. cbn [span_num]. now rewrite Hc, (IH Hnum).
Qed.

Lemma uint_num_chars (d : Decimal.uint) :
  all_chars is_num_char (NilEmpty.string_of_uint d) = true.
Proof. induction d; [reflexivity|exact IHd..]. Qed.

Lemma str_of_int_num_chars (z : Z) :
  all_chars is_num_char (str_of_int z) = true.
Proof.
  unfold str_of_int.
  assert (Hu : forall d, all_chars is_num_char (NilZero.string_of_uint d) = true).
  { intros d. destruct d; try reflexivity; apply (uint_num_chars (_ d)). }
  destruct (Z.to_int z) as [d|d]; cbn [NilZero.string_of_int]; [apply Hu|].
  cbn [all_chars]. now rewrite Hu.
Qed.

Lemma to_int_not_nil (z : Z) :
  Z.to_int z <> Decimal.Pos Decimal.Nil /\ Z.to_int z <> Decimal.Neg Decimal.Nil.
Proof.
  destruct z as [|p|p]; cbn [Z.to_int]; split; try discriminate;
    intros [= H]; now apply DecimalPos.Unsigned.to_uint_nonnil in H.
Qed.

Lemma str_of_int_head (z : Z) :
  exists c t, str_of_int z = String c t /\ is_num_char c = true.
Proof.
  pose proof (str_of_int_num_chars z) as Hall.
  destruct (str_of_int z) as [|c t] eqn:Hstr.
  - exfalso. unfold str_of_int in Hstr.
    destruct (to_int_not_nil z) as [Hp Hn].
    pose proof (NilZero.isi _ Hp Hn) as Hisi. rewrite Hstr in Hisi.
    discriminate.
  - cbn [all_chars] in Hall. apply andb_true_iff in Hall as [Hc _].
    now exists c, t.
Qed.

Lemma parse_int_str (z : Z) (rest : string) :
  starts_clear rest = true ->
  parse_int (str_of_int z +:+ rest) = Some (z, rest).
Proof.
  intros Hrest. unfold parse_int.
  rewrite (span_num_app _ _ (str_of_int_num_chars z) Hrest).
  destruct (to_int_not_nil z) as [Hp Hn].
  unfold str_of_int at 1. rewrite (NilZero.isi _ Hp Hn).
  rewrite DecimalZ.of_to, String.eqb_refl. reflexivity.
Qed.

Lemma strip_prefix_app (p s : string) : strip_prefix p (p +:+ s) = Some s.
Proof.
  induction p as [|c p IH]; [now destruct s|].
  rewrite app_cons. cbn [strip_prefix]. now rewrite Ascii.eqb_refl.
Qed.

Lemma parse_value_dumps (v : PyVal) (rest : string) :
  starts_clear rest = true ->
  parse_value (json_value v +:+ rest) = Some (v, rest).
Proof.
  intros Hrest. destruct v as [s|n|[]|]; cbn [json_value].
  - unfold json_string. rewrite !app_assoc.
    change (dq +:+ json_escape s +:+ dq +:+ rest)
      with (String (ascii_of_nat 34) (json_escape s +:+ dq +:+ rest)).
    cbn [parse_value].
    change (is_num_char (ascii_of_nat 34)) with false.
    change (ord (ascii_of_nat 34) =? 34)%N with true. cbv iota.
    rewrite scan_string_escape. reflexivity.
  - destruct (str_of_int_head n) as (c & t & Hstr & Hc).
    pose proof (parse_int_str n rest Hrest) as Hparse.
    rewrite Hstr in *. rewrite app_cons in *. cbn [parse_value].
    rewrite Hc, Hparse. reflexivity.
  - reflexivity.
  - reflexivity.
  - reflexivity.
Qed.

Lemma json_value_head (v : PyVal) :
  exists c t, json_value v = String c t /\ is_json_ws c = false.
Proof.
  destruct v as [s|n|[]|]; cbn [json_value];
    try (eexists _, _; split; reflexivity).
  destruct (str_of_int_head n) as (c & t & -> & Hc).
  exists c, t. split; [reflexivity|].
  destruct c as [[] [] [] [] [] [] [] []]; try reflexivity; discriminate.
Qed.

Lemma parse_member_dumps (kv : string * PyVal) (rest : string) :
  starts_clear rest = true ->
  parse_member (json_member kv +:+ rest) = Some (kv, rest).
Proof.
  intros Hrest. destruct kv as [key v]. unfold json_member, json_string.
  cbn [fst snd]. rewrite !app_assoc.
  change (dq +:+ json_escape key +:+ dq +:+ ": " +:+ json_value v +:+ rest)
    with (String (ascii_of_nat 34)
            (json_escape key +:+ dq +:+ ": " +:+ json_value v +:+ rest)).
  unfold parse_member.
  change (skip_ws (String (ascii_of_nat 34) ?x)) with (String (ascii_of_nat 34) x).
  cbv iota.
  change (ord (ascii_of_nat 34) =? 34)%N with true. cbv iota.
  rewrite scan_string_escape. cbn [mbind option_bind].
  destruct (json_value_head v) as (c & t & Hv & Hc).
  assert (Hskip : skip_ws (": " +:+ json_value v +:+ rest)
                  = String ":" (String " " (json_value v +:+ rest)))
    by reflexivity.
  rewrite Hskip.
  change (ord ":" =? 58)%N with true. cbv iota.
  assert (Hskip2 : skip_ws (String " " (json_value v +:+ rest))
                   = json_value v +:+ rest).
  { cbn [skip_ws]. change (is_json_ws " ") with true. cbv iota.
    rewrite Hv, app_cons. cbn [skip_ws]. now rewrite Hc. }
  rewrite Hskip2, (parse_value_dumps _ _ Hrest). reflexivity.
Qed.

Lemma json_member_head (kv : string * PyVal) :
  exists t, json_member kv = String (ascii_of_nat 34) t.
Proof.
  unfold json_member, json_string. rewrite !app_assoc. eexists. reflexivity.
Qed.

Lemma parse_members_space (fuel : nat) (s : string) :
  parse_members fuel (String " " s) = parse_members fuel s.
Proof. destruct fuel; reflexivity. Qed.

Lemma parse_members_dumps (d : PyDict) (kv : string * PyVal)
  (fuel : nat) (rest : string) :
  (Datatypes.length d < fuel)%nat ->
  parse_members fuel (join ", " (map json_member (kv :: d)) +:+ "}" +:+ rest)
  = Some (kv :: d, rest).
Proof.
  revert kv fuel. induction d as [|kv' d IH]; intros kv fuel Hfuel.
  - destruct fuel as [|fuel]; [cbn in Hfuel; lia|].
    cbn [map join parse_members].
    rewrite (parse_member_dumps kv ("}" +:+ rest) eq_refl).
    reflexivity.
  - destruct fuel as [|fuel]; [cbn in Hfuel; lia|].
    change (map json_member (kv :: kv' :: d))
      with (json_member kv :: map json_member (kv' :: d)).
    cbn [map] in *. rewrite join_cons, !app_assoc.
    cbn [parse_members].
    rewrite parse_member_dumps by reflexivity. cbn [mbind option_bind].
    change (skip_ws (", " +:+ ?x)) with (String "," (String " " x)).
    cbv iota. change (ord "," =? 44)%N with true. cbv iota.
    rewrite parse_members_space, IH; [reflexivity|].
    cbn [Datatypes.length] in Hfuel. lia.
Qed.

Lemma string_length_app (s t : string) :
  String.length (s +:+ t) = (String.length s + String.length t)%nat.
Proof.
  induction s as [|c s IH]; [reflexivity|].
  rewrite app_cons. cbn [String.length]. now rewrite IH.
Qed.

Lemma join_members_length (d : PyDict) :
  (Datatypes.length d <= String.length (join ", " (map json_member d)))%nat.
Proof.
  induction d as [|kv [|kv' d] IH]; [cbn; lia| |].
  - cbn [map join Datatypes.length].
    destruct (json_member_head kv) as [t ->]. cbn [String.length]. lia.
  - change (map json_member (kv :: kv' :: d))
      with (json_member kv :: map json_member (kv' :: d)).
    cbn [map] in *. rewrite join_cons, !string_length_app.
    destruct (json_member_head kv) as [t ->].
    cbn [String.length Datatypes.length] in *. lia.
Qed.

(** Reading back what [json_dumps] wrote gives the object. *)
Lemma json_loads_dumps (d : PyDict) : json_loads (json_dumps d) = Some d.
Proof.
  destruct d as [|kv d]; [reflexivity|].
  unfold json_loads, json_dumps.
  pose proof (join_members_length (kv :: d)) as Hlen.
  set (body := join ", " (map json_member (kv :: d))) in *.
  assert (Hbody : exists t, body = String (ascii_of_nat 34) t).
  { subst body. destruct d as [|kv' d].
    - apply json_member_head.
    - change (map json_member (kv :: kv' :: d))
        with (json_member kv :: map json_member (kv' :: d)).
      cbn [map]. rewrite join_cons.
      destruct (json_member_head kv) as [t ->]. eexists. reflexivity. }
  destruct Hbody as [t Ht].
  change (skip_ws ("{" +:+ body +:+ "}")) with (String "{" (body +:+ "}")).
  cbv iota. change (ord "{" =? 123)%N with true. cbv iota.
  assert (Hskip : skip_ws (body +:+ "}") = String (ascii_of_nat 34) (t +:+ "}"))
    by (rewrite Ht; reflexivity).
  rewrite Hskip.
  change (ord (ascii_of_nat 34) =? 125)%N with false. cbv iota.
  rewrite <- (app_nil_r (body +:+ "}")), app_assoc.
  subst body. rewrite parse_members_dumps; [reflexivity|].
  change ("{" +:+ ?x) with (String "{" x). cbn [String.length].
  rewrite string_length_app. cbn [Datatypes.length] in Hlen. lia.
Qed.

End JsonRoundTrip.

(** * The request handler *)

Section HandlerFacts.

Variable provider : PyVal -> PyResult Paper.
Variable now : datetime.
Variable arguments : gmap string PyVal.

Lemma handle_no_paper_id :
  arguments !! "paper_id" = None ->
  handle_citation provider now arguments
  = ([EvLogError "Citation error: 'paper_id'"],
     Ret (error_envelope "Error: 'paper_id'")).
Proof.
  intros Hpid. unfold handle_citation, getitem. rewrite Hpid. reflexivity.
Qed.

Lemma handle_format_raises (pid : PyVal) (e : Exn) :
  arguments !! "paper_id" = Some pid ->
  requested_format arguments = Raise e ->
  handle_citation provider now arguments
  = ([EvLogError ("Citation error: " +:+ exn_str e)],
     Ret (error_envelope (generic_message e))).
Proof.
  intros Hpid Hfmt. unfold handle_citation, getitem. rewrite Hpid.
  unfold after_paper_id. fold (requested_format arguments). rewrite Hfmt.
  unfold requested_format, lower_method in Hfmt.
  destruct (dict_get arguments "format" (VStr "apa")); [discriminate|..];
    injection Hfmt as <-; reflexivity.
Qed.

Lemma handle_unsupported (pid : PyVal) (f : string) :
  arguments !! "paper_id" = Some pid ->
  requested_format arguments = Ret f ->
  in_formats f = false ->
  handle_citation provider now arguments
  = ([], Ret (error_envelope (unsupported_message f))).
Proof.
  intros Hpid Hfmt Hin. unfold handle_citation, getitem. rewrite Hpid.
  unfold after_paper_id. fold (requested_format arguments). rewrite Hfmt.
  cbn [lift mbind Run_bind]. rewrite Hin. reflexivity.
Qed.

Lemma handle_provider_raises (pid : PyVal) (f : string) (e : Exn) :
  arguments !! "paper_id" = Some pid ->
  requested_format arguments = Ret f ->
  in_formats f = true ->
  provider pid = Raise e ->
  handle_citation provider now arguments
  = (let (tr, r) := except_clauses (Some pid) e in (EvFetch pid :: tr, r)).
Proof.
  intros Hpid Hfmt Hin Hprov. unfold handle_citation, getitem. rewrite Hpid.
  unfold after_paper_id. fold (requested_format arguments). rewrite Hfmt.
  cbn [lift mbind Run_bind]. rewrite Hin, Hprov. reflexivity.
Qed.

Lemma handle_rendered (pid : PyVal) (f : string) (paper : Paper) :
  arguments !! "paper_id" = Some pid ->
  requested_format arguments = Ret f ->
  in_formats f = true ->
  provider pid = Ret paper ->
  handle_citation provider now arguments
  = match generate_citation now paper f with
    | Ret citation =>
        ([EvFetch pid; EvRender paper f],
         Ret (success_envelope pid f citation))
    | Raise e =>
        (let (tr, r) := except_clauses (Some pid) e in
         (EvFetch pid :: EvRender paper f :: tr, r))
    end.
Proof.
  intros Hpid Hfmt Hin Hprov. unfold handle_citation, getitem. rewrite Hpid.
  unfold after_paper_id. fold (requested_format arguments). rewrite Hfmt.
  cbn [lift mbind Run_bind]. rewrite Hin, Hprov.
  destruct (generate_citation now paper f); reflexivity.
Qed.

End HandlerFacts.

Section Envelopes.

Lemma error_envelope_item (message : string) :
  one_json_item (error_envelope message) (error_object message).
Proof. eexists. split; [reflexivity|]. apply json_loads_dumps. Qed.

Lemma success_envelope_item (pid : PyVal) (f c : string) :
  one_json_item (success_envelope pid f c) (success_object pid f c).
Proof. eexists. split; [reflexivity|]. apply json_loads_dumps. Qed.

Lemma requested_format_raises (arguments : gmap string PyVal) (e : Exn) :
  requested_format arguments = Raise e -> exn_class e = AttributeError.
Proof.
  unfold requested_format, lower_method.
  destruct (dict_get arguments "format" (VStr "apa")); [discriminate|..];
    now intros [= <-].
Qed.

Lemma requested_format_lower (arguments : gmap string PyVal) (f : string) :
  requested_format arguments = Ret f ->
  exists s, dict_get arguments "format" (VStr "apa") = VStr s
            /\ f = py_lower s.
Proof.
  unfold requested_format, lower_method.
  destruct (dict_get arguments "format" (VStr "apa")) as [s| | |];
    try discriminate.
  intros [= <-]. now exists s.
Qed.

Lemma generate_citation_raises (now : datetime) (p : Paper)
  (f : string) (e : Exn) :
  generate_citation now p f = Raise e -> exn_class e = IndexError.
Proof.
  unfold generate_citation.
  repeat match goal with
         | |- context [if ?b then _ else _] => destruct b; try discriminate
         end.
  unfold first_author_last, last_item.
  destruct (authors p) as [|a rest]; [discriminate|].
  destruct (py_split a); [|discriminate]. now intros [= <-].
Qed.

End Envelopes.

Section Boundary.








End Boundary.

Section Failures.

Lemma except_clauses_returns (pid : PyVal) (e : Exn) :
  is_Exception (exn_class e) = true ->
  exists tr message,
    except_clauses (Some pid) e = (tr, Ret (error_envelope message)).
Proof.
  intros Hexc. unfold except_clauses.
  destruct (is_StopIteration (exn_class e)).
  - eexists _, _. reflexivity.
  - rewrite Hexc. eexists _, _. reflexivity.
Qed.

(** Whatever the request, with a client that raises only ordinary
    failures the handler returns: an error envelope, or the success
    envelope of the paper found and rendered. *)
Lemma handle_citation_cases
  (provider : PyVal -> PyResult Paper) (now : datetime)
  (arguments : gmap string PyVal) :
  ordinary_failures provider ->
  (exists message,
      snd (handle_citation provider now arguments)
      = Ret (error_envelope message))
  \/ (exists pid f paper citation,
        arguments !! "paper_id" = Some pid
        /\ requested_format arguments = Ret f
        /\ in_formats f = true
        /\ provider pid = Ret paper
        /\ generate_citation now paper f = Ret citation
        /\ snd (handle_citation provider now arguments)
           = Ret (success_envelope pid f citation)).
Proof.
  intros Hprov.
  destruct (arguments !! "paper_id") as [pid|] eqn:Hpid.
  2: { left. rewrite (handle_no_paper_id _ _ _ Hpid). now eexists. }
  destruct (requested_format arguments) as [f|e] eqn:Hfmt.
  2: { left. rewrite (handle_format_raises _ _ _ pid e Hpid Hfmt).
       now eexists. }
  destruct (in_formats f) eqn:Hin.
  2: { left. rewrite (handle_unsupported _ _ _ pid f Hpid Hfmt Hin).
       now eexists. }
  destruct (provider pid) as [paper|e] eqn:Hres.
  - rewrite (handle_rendered _ now _ pid f paper Hpid Hfmt Hin Hres).
    destruct (generate_citation now paper f) as [citation|e] eqn:Hgen.
    + right. exists pid, f, paper, citation. repeat split; assumption.
    + left. apply generate_citation_raises in Hgen.
      destruct (except_clauses_returns pid e) as (tr & message & ->);
        [now rewrite Hgen|].
      now exists message.
  - left. rewrite (handle_provider_raises _ now _ pid f e Hpid Hfmt Hin Hres).
    destruct (except_clauses_returns pid e (Hprov _ _ Hres))
      as (tr & message & ->).
    now exists message.
Qed.

(** C6, as the code has it: when the request is valid and the client
    raises an exception derived from [Exception] other than
    [StopIteration], the handler logs it and returns one text item that
    reads as the object with [status] [error] and the message [Error: ]
    followed by the description of the exception; and with a client that
    raises exceptions derived from [Exception] only, the handler returns
    a list of items on every request: nothing is raised past it. *)
Theorem handle_provider_failure
  (provider : PyVal -> PyResult Paper) (now : datetime)
  (arguments : gmap string PyVal) :
  (forall pid f e,
      arguments !! "paper_id" = Some pid ->
      requested_format arguments = Ret f ->
      in_formats f = true ->
      provider pid = Raise e ->
      is_StopIteration (exn_class e) = false ->
      is_Exception (exn_class e) = true ->
      exists items,
        handle_citation provider now arguments
        = ([EvFetch pid; EvLogError ("Citation error: " +:+ exn_str e)],
           Ret items)
        /\ one_json_item items (error_object ("Error: " +:+ exn_str e)))
  /\ (ordinary_failures provider ->
      exists items, snd (handle_citation provider now arguments) = Ret items).
Proof.
  split.
  - intros pid f e Hpid Hfmt Hin Hres Hstop Hexc.
    exists (error_envelope (generic_message e)). split.
    + rewrite (handle_provider_raises _ now _ pid f e Hpid Hfmt Hin Hres).
      unfold except_clauses. rewrite Hstop, Hexc. reflexivity.
    + apply error_envelope_item.
  - intros Hprov.
    destruct (handle_citation_cases provider now arguments Hprov)
      as [[message ->]|(pid & f & paper & citation & _ & _ & _ & _ & _ & ->)];
      now eexists.
Qed.

Lemma handle_provider_failure_witness :
  (exists items,
      handle_citation rate_limited_provider a_clock fixture_request
      = ([EvFetch (VStr "1611.03530");
          EvLogError "Citation error: Page request resulted in HTTP 429"],
         Ret items)
      /\ one_json_item items
           (error_object "Error: Page request resulted in HTTP 429"))
  /\ (exists items,
        snd (handle_citation rate_limited_provider a_clock fixture_request)
        = Ret items).
Proof.
  split.
  - apply (proj1 (handle_provider_failure rate_limited_provider a_clock
                    fixture_request)
             (VStr "1611.03530") "bibtex"
             (mkExn (OtherException "HTTPError")
                "Page request resulted in HTTP 429"));
      reflexivity.
  - apply (proj2 (handle_provider_failure rate_limited_provider a_clock
                    fixture_request)).
    intros v e [= <-]. reflexivity.
Defined.

(** C6, as the claim has it, fails when the client is interrupted:
    [KeyboardInterrupt] is no [Exception], neither clause catches it, and
    it is raised past the handler. *)
Lemma interrupt_propagates :
  ~ (forall provider now arguments,
        exists items, snd (handle_citation provider now arguments) = Ret items).
Proof.
  intros Hall.
  destruct (Hall interrupted_provider a_clock fixture_request) as [items H].
  vm_compute in H. discriminate.
Qed.

Example interrupt_raised :
  handle_citation interrupted_provider a_clock fixture_request
  = ([EvFetch (VStr "1611.03530")],
     Raise (mkExn KeyboardInterrupt EmptyString)).
Proof. vm_compute. reflexivity. Qed.

(** C10, as the code has it: on every request - one without [paper_id]
    too - and with a client that raises exceptions derived from
    [Exception] only, the handler returns exactly one text item, whose
    text reads as a JSON object with a [status] that is [error] or
    [success]; when it is [success] the object is made of that status,
    the [paper_id] of the request, its style in lower case and the
    citation the renderer returned for the paper found. *)
Theorem handle_citation_envelope
  (provider : PyVal -> PyResult Paper) (now : datetime)
  (arguments : gmap string PyVal) :
  ordinary_failures provider ->
  exists t obj,
    snd (handle_citation provider now arguments) = Ret [mkText "text" t]
    /\ json_loads t = Some obj
    /\ (dict_lookup obj "status" = Some (VStr "error")
        \/ (dict_lookup obj "status" = Some (VStr "success")
            /\ exists pid s paper citation,
                arguments !! "paper_id" = Some pid
                /\ dict_get arguments "format" (VStr "apa") = VStr s
                /\ provider pid = Ret paper
                /\ generate_citation now paper (py_lower s) = Ret citation
                /\ obj = success_object pid (py_lower s) citation)).
Proof.
  intros Hprov.
  destruct (handle_citation_cases provider now arguments Hprov)
    as [[message ->]
       |(pid & f & paper & citation & Hpid & Hfmt & _ & Hres & Hgen & ->)].
  - destruct (error_envelope_item message) as (t & -> & Hloads).
    exists t, (error_object message). split; [reflexivity|].
    split; [exact Hloads|]. now left.
  - destruct (success_envelope_item pid f citation) as (t & -> & Hloads).
    exists t, (success_object pid f citation). split; [reflexivity|].
    split; [exact Hloads|]. right. split; [reflexivity|].
    destruct (requested_format_lower _ _ Hfmt) as (s & Hs & ->).
    now exists pid, s, paper, citation.
Qed.

Lemma handle_citation_envelope_witness :
  exists t obj,
    snd (handle_citation fixture_provider a_clock no_id_request)
    = Ret [mkText "text" t]
    /\ json_loads t = Some obj
    /\ (dict_lookup obj "status" = Some (VStr "error")
        \/ (dict_lookup obj "status" = Some (VStr "success")
            /\ exists pid s paper citation,
                no_id_request !! "paper_id" = Some pid
                /\ dict_get no_id_request "format" (VStr "apa") = VStr s
                /\ fixture_provider pid = Ret paper
                /\ generate_citation a_clock paper (py_lower s) = Ret citation
                /\ obj = success_object pid (py_lower s) citation)).
Proof.
  apply (handle_citation_envelope fixture_provider a_clock no_id_request).
  intros v e. unfold fixture_provider.
  repeat match goal with
         | |- context [match ?x with _ => _ end] => destruct x
         end; try discriminate; now intros [= <-].
Defined.

(** C10, as the claim has it, fails when the client ends the process:
    [SystemExit] is raised past the handler and no item is returned. *)
Lemma exit_returns_no_item :
  ~ (forall provider now arguments,
        exists t obj,
          snd (handle_citation provider now arguments) = Ret [mkText "text" t]
          /\ json_loads t = Some obj
          /\ (dict_lookup obj "status" = Some (VStr "error")
              \/ dict_lookup obj "status" = Some (VStr "success"))).
Proof.
  intros Hall.
  destruct (Hall exiting_provider a_clock
              (args_of [("paper_id", VStr "2005.00001")]))
    as (t & obj & H & _).
  vm_compute in H. discriminate.
Qed.

End Failures.

(** * More on the author formatter *)

Section AuthorStyles.

Lemma prefix_refl (s : string) : String.prefix s s = true.
Proof. rewrite <- (app_nil_r s) at 2. apply prefix_app. Qed.

Lemma contains_refl (s : string) : contains s s = true.
Proof. apply contains_here, prefix_refl. Qed.

Lemma join_head (sep x : string) (l : list string) :
  exists t, join sep (x :: l) = x +:+ t.
Proof.
  destruct l as [|y l].
  - exists EmptyString. cbn [join]. now rewrite app_nil_r.
  - eexists. apply join_cons.
Qed.

Lemma len_ge_3 {A : Type} (x y z : A) (l : list A) :
  (len (x :: y :: z :: l) =? 1) = false
  /\ (len (x :: y :: z :: l) =? 2) = false.
Proof.
  rewrite !len_cons. pose proof (len_nonneg l).
  split; apply Z.eqb_neq; lia.
Qed.

Lemma format_authors_prefix_first
  (first : string) (rest : list string) (format_type : string) :
  String.prefix first (format_authors (first :: rest) format_type) = true.
Proof.
  destruct (join_head ", " first rest) as [t Ht].
  destruct rest as [|y [|z rest]].
  - unfold format_authors.
    repeat match goal with
           | |- context [String.eqb format_type ?s] =>
               destruct (String.eqb format_type s)
           end; apply prefix_refl.
  - unfold format_authors.
    repeat match goal with
           | |- context [String.eqb format_type ?s] =>
               destruct (String.eqb format_type s)
           end;
      first [apply (prefix_app first) | rewrite Ht; apply prefix_app].
  - destruct (len_ge_3 first y z rest) as [H1 H2].
    destruct (join_head ", " first (List.removelast (y :: z :: rest)))
      as [u Hu].
    unfold format_authors. rewrite H1, H2.
    change (List.removelast (first :: y :: z :: rest))
      with (first :: List.removelast (y :: z :: rest)).
    rewrite Hu, Ht. change (item (first :: y :: z :: rest) 0) with first.
    repeat match goal with
           | |- context [if ?b then _ else _] => destruct b
           end;
      rewrite ?app_assoc; apply prefix_app.
Qed.

(** Whatever the style name, the author text of a non-empty list is the
    first author's name followed by the rest of the text: no style puts
    anything before the first author or changes the name. *)
Theorem format_authors_starts_with_first
  (authors : list string) (format_type : string) :
  authors <> [] ->
  exists first tail,
    head authors = Some first
    /\ format_authors authors format_type = first +:+ tail.
Proof.
  intros Hne. destruct authors as [|first rest]; [contradiction|].
  destruct (prefix_elim _ _ (format_authors_prefix_first first rest format_type))
    as [tail Htail].
  now exists first, tail.
Qed.

Lemma format_authors_starts_with_first_witness :
  exists first tail,
    head zhang_authors = Some first
    /\ format_authors zhang_authors "harvard" = first +:+ tail.
Proof.
  apply (format_authors_starts_with_first zhang_authors "harvard").
  discriminate.
Defined.

(** APA and MLA: the name for one author, the two names around [ & ]
    resp. [, and ] for two, and the first name followed by [ et al.] for
    every larger number of authors. *)
Theorem format_authors_apa_mla (x y : string) (rest : list string) :
  (format_authors [x] "apa" = x /\ format_authors [x] "mla" = x)
  /\ (format_authors [x; y] "apa" = x +:+ " & " +:+ y
      /\ format_authors [x; y] "mla" = x +:+ ", and " +:+ y)
  /\ (2 <= len rest ->
      format_authors (x :: rest) "apa" = x +:+ " et al."
      /\ format_authors (x :: rest) "mla" = x +:+ " et al.").
Proof.
  split; [split; reflexivity|]. split; [split; reflexivity|].
  intros Hlen. unfold format_authors.
  cbn [String.eqb Ascii.eqb Bool.eqb]. rewrite len_cons.
  destruct (Z.eqb_spec (1 + len rest) 1); [lia|].
  destruct (Z.eqb_spec (1 + len rest) 2); [lia|].
  split; reflexivity.
Qed.

Lemma format_authors_apa_mla_witness :
  format_authors ["A"; "B"; "C"] "apa" = "A et al."
  /\ format_authors ["A"; "B"; "C"] "mla" = "A et al.".
Proof.
  apply (format_authors_apa_mla "A" "B" ["B"; "C"]).
  cbv [len Datatypes.length]. lia.
Defined.

(** Harvard: the name for one author, [X and Y] for two, [X, Y and Z]
    for three, and [X et al.] from four authors on. *)
Theorem format_authors_harvard (x y z : string) (rest : list string) :
  format_authors [x] "harvard" = x
  /\ format_authors [x; y] "harvard" = x +:+ " and " +:+ y
  /\ format_authors [x; y; z] "harvard"
     = x +:+ ", " +:+ y +:+ " and " +:+ z
  /\ (3 <= len rest ->
      format_authors (x :: rest) "harvard" = x +:+ " et al.").
Proof.
  split; [reflexivity|]. split; [reflexivity|]. split; [reflexivity|].
  intros Hlen. unfold format_authors.
  cbn [String.eqb Ascii.eqb Bool.eqb]. rewrite len_cons.
  destruct (Z.eqb_spec (1 + len rest) 1); [lia|].
  destruct (Z.eqb_spec (1 + len rest) 2); [lia|].
  destruct (Z.eqb_spec (1 + len rest) 3); [lia|].
  reflexivity.
Qed.

Lemma format_authors_harvard_witness :
  format_authors ["A"; "B"; "C"; "D"] "harvard" = "A et al.".
Proof.
  apply (format_authors_harvard "A" "B" "C" ["B"; "C"; "D"]).
  cbv [len Datatypes.length]. lia.
Defined.


Lemma contains_app_l (needle hay post : string) :
  contains needle hay = true -> contains needle (hay +:+ post) = true.
Proof.
  intros H. destruct (contains_elim _ _ H) as (pre & mid & ->).
  rewrite !app_assoc. apply contains_intro.
Qed.

Lemma snoc_long (x y : string) (l : list string) :
  exists init z, x :: y :: l = (init ++ [z])%list /\ 1 <= len init.
Proof.
  destruct (@exists_last _ (y :: l)) as (init & z & Heq); [discriminate|].
  exists (x :: init), z. rewrite Heq. split; [reflexivity|].
  rewrite len_cons. pose proof (len_nonneg init). lia.
Qed.

Lemma format_authors_ieee_long (init : list string) (z : string) :
  2 <= len init ->
  format_authors (init ++ [z]) "ieee"
  = join ", " init +:+ ", and " +:+ z.
Proof.
  intros Hlen. destruct init as [|a [|b init]];
    try (cbv [len Datatypes.length] in Hlen; lia).
  change ((a :: b :: init) ++ [z])%list with (a :: b :: (init ++ [z]))%list.
  unfold format_authors. cbn [String.eqb Ascii.eqb Bool.eqb].
  rewrite !len_cons. pose proof (len_nonneg (init ++ [z])) as Hpos.
  assert (Hne : len (init ++ [z]) <> 0).
  { unfold len. rewrite length_app. cbn [Datatypes.length]. lia. }
  destruct (Z.eqb_spec (1 + (1 + len (init ++ [z]))) 1); [lia|].
  destruct (Z.eqb_spec (1 + (1 + len (init ++ [z]))) 2); [lia|].
  change (a :: b :: (init ++ [z]))%list with ((a :: b :: init) ++ [z])%list.
  now rewrite List.removelast_last, List.last_last.
Qed.

(** IEEE: from three authors on, the whole list is written, joined by
    commas with [, and ] before the last name; and whatever their number,
    every author's name is in the author text. *)
Theorem format_authors_ieee_lists_all (authors : list string) :
  (forall init z,
      2 <= len init ->
      format_authors (init ++ [z]) "ieee"
      = join ", " init +:+ ", and " +:+ z)
  /\ (forall a, In a authors ->
                contains a (format_authors authors "ieee") = true).
Proof.
  split; [exact format_authors_ieee_long|].
  intros a Hin. destruct authors as [|x [|y [|w rest]]].
  - destruct Hin.
  - destruct Hin as [->|[]]. apply contains_refl.
  - change (format_authors [x; y] "ieee") with (x +:+ " and " +:+ y).
    destruct Hin as [->|[->|[]]].
    + apply contains_here, prefix_app.
    + apply contains_app_r, contains_app_r, contains_refl.
  - destruct (snoc_long y w rest) as (init & z & Heq & Hlen).
    assert (Hall : x :: y :: w :: rest = ((x :: init) ++ [z])%list)
      by (cbn [app]; now rewrite Heq).
    rewrite Hall in *. rewrite format_authors_ieee_long
      by (rewrite len_cons; lia).
    apply in_app_or in Hin as [Hin|[->|[]]].
    + apply contains_app_l. now apply join_contains.
    + apply contains_app_r, contains_app_r, contains_refl.
Qed.

(** A style name that is none of [apa], [mla], [chicago], [harvard] and
    [ieee] - [bibtex], or a name in capitals - gets the whole list,
    joined by commas. *)
Theorem format_authors_other_style
  (authors : list string) (format_type : string) :
  ~ In format_type ["apa"; "mla"; "chicago"; "harvard"; "ieee"] ->
  format_authors authors format_type = join ", " authors.
Proof.
  intros Hnot. unfold format_authors.
  destruct authors as [|x rest]; [reflexivity|].
  repeat match goal with
         | |- context [String.eqb format_type ?s] =>
             destruct (String.eqb_spec format_type s) as [->|_];
             [exfalso; apply Hnot; cbn [In]; tauto|]
         end.
  reflexivity.
Qed.

Lemma format_authors_other_style_witness :
  format_authors ["A"; "B"; "C"] "APA" = "A, B, C".
Proof.
  apply (format_authors_other_style ["A"; "B"; "C"] "APA").
  cbn [In]. intros H. repeat destruct H as [H|H]; discriminate || exact H.
Defined.

End AuthorStyles.

(** * More on the renderer *)

Section Templates.

Lemma generate_citation_not_bibtex (now : datetime) (p : Paper)
  (f : string) :
  f <> "bibtex" -> exists text, generate_citation now p f = Ret text.
Proof.
  intros Hf. unfold generate_citation.
  destruct (String.eqb_spec f "bibtex") as [->|_]; [contradiction|].
  repeat match goal with
         | |- context [if ?b then _ else _] => destruct b
         end; eexists; reflexivity.
Qed.

(** The renderer raises in one case only: the style is [bibtex] and the
    first author's name is blank; what it raises then is the
    [IndexError] of [split()[-1]]. *)
Theorem generate_citation_raises_iff
  (now : datetime) (p : Paper) (f : string) (e : Exn) :
  generate_citation now p f = Raise e
  <-> f = "bibtex"
      /\ (exists a rest,
             authors p = a :: rest /\ all_chars py_isspace a = true)
      /\ e = mkExn IndexError "list index out of range".
Proof.
  split.
  - intros Hraise.
    destruct (String.eqb_spec f "bibtex") as [->|Hf].
    + split; [reflexivity|].
      destruct (bibtex_returns_or_blank now p)
        as [[entry Hret]|(a & rest & Hauthors & Hblank & Hr)];
        rewrite Hraise in *; [discriminate|].
      injection Hr as ->. split; [|reflexivity]. now exists a, rest.
    + destruct (generate_citation_not_bibtex now p f Hf) as [text Hret].
      rewrite Hraise in Hret. discriminate.
  - intros (-> & (a & rest & Hauthors & Hblank) & ->).
    rewrite generate_citation_bibtex, Hauthors.
    now rewrite (first_author_last_blank _ _ Hblank).
Qed.

Ltac find_part :=
  rewrite ?app_assoc;
  repeat first [ apply contains_refl
               | apply contains_here, prefix_app
               | apply contains_app_r ].

Ltac each_style f :=
  unfold generate_citation;
  repeat match goal with
         | |- context [String.eqb f ?s] =>
             destruct (String.eqb_spec f s) as [->|?]
         end.

(** Whatever the style name, a rendered citation contains the title of
    the paper and the year it was published. *)
Theorem citation_has_title_and_year
  (now : datetime) (p : Paper) (f text : string) :
  generate_citation now p f = Ret text ->
  contains (title p) text = true
  /\ contains (str_of_int (year (published p))) text = true.
Proof.
  each_style f;
    try (intros [= <-]; split; find_part).
  cbn [mbind PyResult_bind].
  destruct (first_author_last (authors p)) as [name|e]; [|discriminate].
  intros [= <-]. unfold bibtex_entry. cbv zeta. split; find_part.
Qed.

Lemma citation_has_title_and_year_witness :
  contains "Understanding Deep Learning Requires Rethinking Generalization"
    "Zhang, Chiyuan et al. (2017). Understanding Deep Learning Requires Rethinking Generalization. arXiv preprint arXiv:1611.03530. http://arxiv.org/abs/1611.03530v2"
  = true
  /\ contains "2017"
       "Zhang, Chiyuan et al. (2017). Understanding Deep Learning Requires Rethinking Generalization. arXiv preprint arXiv:1611.03530. http://arxiv.org/abs/1611.03530v2"
     = true.
Proof.
  apply (citation_has_title_and_year a_clock fixture_paper "apa").
  reflexivity.
Defined.

(** The link of the paper is in the citation of every style but [ieee],
    and its short id in the citation of every style but [mla]. *)
Theorem citation_link_and_id
  (now : datetime) (p : Paper) (f text : string) :
  generate_citation now p f = Ret text ->
  (f <> "ieee" -> contains (entry_id p) text = true)
  /\ (f <> "mla" -> contains (short_id p) text = true).
Proof.
  each_style f;
    try (intros [= <-]; split; intros Hf; try contradiction; find_part).
  cbn [mbind PyResult_bind].
  destruct (first_author_last (authors p)) as [name|e]; [|discriminate].
  intros [= <-]. unfold bibtex_entry. cbv zeta. split; intros _; find_part.
Qed.

Lemma citation_link_and_id_witness :
  contains "http://arxiv.org/abs/1611.03530v2"
    "Zhang, Chiyuan et al. (2017). Understanding Deep Learning Requires Rethinking Generalization. arXiv preprint arXiv:1611.03530. http://arxiv.org/abs/1611.03530v2"
  = true
  /\ contains "1611.03530"
       "Zhang, Chiyuan et al. (2017). Understanding Deep Learning Requires Rethinking Generalization. arXiv preprint arXiv:1611.03530. http://arxiv.org/abs/1611.03530v2"
     = true.
Proof.
  split;
    apply (citation_link_and_id a_clock fixture_paper "apa");
    reflexivity || discriminate.
Defined.

(** The IEEE citation of a paper can be without its link, the MLA one
    without its id. *)
Example ieee_without_link_mla_without_id :
  (exists text, generate_citation a_clock fixture_paper "ieee" = Ret text
                /\ contains (entry_id fixture_paper) text = false)
  /\ (exists text, generate_citation a_clock eight_paper "mla" = Ret text
                   /\ contains (short_id eight_paper) text = false).
Proof. split; eexists; split; reflexivity. Qed.

End Templates.

(** * The key of a BibTeX entry *)

Section EntryKey.

Lemma all_chars_app (f : ascii -> bool) (s t : string) :
  all_chars f (s +:+ t) = all_chars f s && all_chars f t.
Proof.
  induction s as [|c s IH]; [reflexivity|].
  rewrite app_cons. cbn [all_chars]. now rewrite IH, andb_assoc.
Qed.

Lemma all_chars_impl (f g : ascii -> bool) (s : string) :
  (forall c, f c = true -> g c = true) ->
  all_chars f s = true -> all_chars g s = true.
Proof.
  intros Hfg. induction s as [|c s IH]; [reflexivity|].
  cbn [all_chars]. intros [Hc Hs]%andb_true_iff.
  now rewrite (Hfg _ Hc), IH.
Qed.

(** The words [split] returns are not empty and have no whitespace. *)
Lemma split_from_words (cur s : string) :
  all_chars (fun c => negb (py_isspace c)) cur = true ->
  Forall (fun w => w <> EmptyString
                   /\ all_chars (fun c => negb (py_isspace c)) w = true)
    (split_from cur s).
Proof.
  revert cur. induction s as [|c s IH]; intros cur Hcur; cbn [split_from].
  - destruct (String.eqb_spec cur EmptyString); repeat constructor; auto.
  - destruct (py_isspace c) eqn:Hc.
    + destruct (String.eqb_spec cur EmptyString).
      * now apply IH.
      * constructor; [auto|now apply IH].
    + apply IH. rewrite all_chars_app, Hcur. cbn [all_chars]. now rewrite Hc.
Qed.

Lemma lower_char_space (c : ascii) :
  py_isspace (lower_char c) = py_isspace c.
Proof. destruct c as [[] [] [] [] [] [] [] []]; reflexivity. Qed.

Lemma py_lower_no_space (s : string) :
  all_chars (fun c => negb (py_isspace c)) s = true ->
  all_chars (fun c => negb (py_isspace c)) (py_lower s) = true.
Proof.
  induction s as [|c s IH]; [reflexivity|]. cbn [all_chars py_lower].
  intros [Hc Hs]%andb_true_iff. now rewrite lower_char_space, Hc, IH.
Qed.

Lemma num_char_no_space (c : ascii) :
  is_num_char c = true -> negb (py_isspace c) = true.
Proof.
  destruct c as [[] [] [] [] [] [] [] []]; try reflexivity; discriminate.
Qed.

Lemma last_item_Forall (P : string -> Prop) (l : list string) (x : string) :
  Forall P l -> last_item l = Ret x -> P x.
Proof.
  intros Hall. destruct l as [|y l]; [discriminate|].
  destruct (@exists_last _ (y :: l)) as (init & z & Heq); [discriminate|].
  rewrite Heq in *. rewrite last_item_snoc. intros [= <-].
  apply Forall_app in Hall as [_ Hz]. now inversion Hz.
Qed.

(** The first line of a BibTeX entry is [@article{key,] with a key that
    is not empty and has no whitespace in it, also when the first
    author's name has several words or ends in blanks; the [author]
    field follows on the next line. *)
Theorem bibtex_key_line (now : datetime) (p : Paper) (entry : string) :
  generate_citation now p "bibtex" = Ret entry ->
  exists key tail,
    entry = "@article{" +:+ key +:+ "," +:+ nl +:+ "  author = {" +:+ tail
    /\ key <> EmptyString
    /\ all_chars (fun c => negb (py_isspace c)) key = true.
Proof.
  rewrite generate_citation_bibtex.
  destruct (first_author_last (authors p)) as [name|e] eqn:Hname;
    [|discriminate].
  intros [= <-].
  assert (Hword : name <> EmptyString
                  /\ all_chars (fun c => negb (py_isspace c)) name = true).
  { unfold first_author_last in Hname.
    destruct (authors p) as [|a rest].
    - injection Hname as <-. split; [discriminate|reflexivity].
    - apply (last_item_Forall
               (fun w => w <> EmptyString
                         /\ all_chars (fun c => negb (py_isspace c)) w = true)
               (py_split a)); [|exact Hname].
      now apply split_from_words. }
  destruct Hword as [Hne Hns].
  exists (py_lower name +:+ str_of_int (year (published p))). eexists.
  split; [|split].
  - unfold bibtex_entry. cbv zeta.
    rewrite (app_assoc (py_lower name)). reflexivity.
  - destruct name as [|c name]; [contradiction|]. discriminate.
  - rewrite all_chars_app, (py_lower_no_space _ Hns). cbn [andb].
    apply (all_chars_impl is_num_char); [exact num_char_no_space|].
    apply str_of_int_num_chars.
Qed.

Lemma bibtex_key_line_witness :
  exists key tail,
    "@article{lovelace2020," +:+ nl
    +:+ "  author = {  Ada   Lovelace   and Ben B}," +:+ nl
    +:+ "  title = {T}," +:+ nl
    +:+ "  journal = {arXiv preprint arXiv:2005.00001}," +:+ nl
    +:+ "  year = {2020}," +:+ nl +:+ "  url = {u}" +:+ nl +:+ "}"
    = "@article{" +:+ key +:+ "," +:+ nl +:+ "  author = {" +:+ tail
    /\ key <> EmptyString
    /\ all_chars (fun c => negb (py_isspace c)) key = true.
Proof.
  apply (bibtex_key_line a_clock spaced_name_paper). reflexivity.
Defined.

End EntryKey.

(** * The runs of the request handler *)

Section Runs.

Variable provider : PyVal -> PyResult Paper.
Variable now : datetime.
Variable arguments : gmap string PyVal.

(** Every call goes one of the eight ways. *)
Lemma handle_citation_run :
  handler_run provider now arguments (handle_citation provider now arguments).
Proof.
  destruct (arguments !! "paper_id") as [pid|] eqn:Hpid.
  2: { rewrite (handle_no_paper_id _ _ _ Hpid). now constructor. }
  destruct (requested_format arguments) as [f|e] eqn:Hfmt.
  2: { rewrite (handle_format_raises _ _ _ pid e Hpid Hfmt).
       now apply (run_format_not_str _ _ _ pid). }
  destruct (in_formats f) eqn:Hin.
  2: { rewrite (handle_unsupported _ _ _ pid f Hpid Hfmt Hin).
       now apply (run_unsupported _ _ _ pid). }
  destruct (provider pid) as [paper|e] eqn:Hres.
  - rewrite (handle_rendered _ now _ pid f paper Hpid Hfmt Hin Hres).
    destruct (generate_citation now paper f) as [citation|e] eqn:Hgen.
    + now apply (run_success _ _ _ pid f paper).
    + pose proof (generate_citation_raises _ _ _ _ Hgen) as Hclass.
      unfold except_clauses. rewrite Hclass. cbn [is_StopIteration is_Exception].
      now apply (run_render_failed _ _ _ pid f paper).
  - rewrite (handle_provider_raises _ now _ pid f e Hpid Hfmt Hin Hres).
    unfold except_clauses.
    destruct (is_StopIteration (exn_class e)) eqn:Hstop.
    + now apply (run_not_found _ _ _ pid f e).
    + destruct (is_Exception (exn_class e)) eqn:Hexc.
      * now apply (run_client_failed _ _ _ pid f e).
      * now apply (run_raised _ _ _ pid f e).
Qed.

End Runs.

Section Requests.

Lemma handle_citation_ext (provider : PyVal -> PyResult Paper)
  (now : datetime) (args1 args2 : gmap string PyVal) :
  args1 !! "paper_id" = args2 !! "paper_id" ->
  requested_format args1 = requested_format args2 ->
  handle_citation provider now args1 = handle_citation provider now args2.
Proof.
  intros Hpid Hfmt. unfold handle_citation, getitem, after_paper_id.
  fold (requested_format args1). fold (requested_format args2).
  now rewrite Hpid, Hfmt.
Qed.

Lemma lower_char_idem (c : ascii) : lower_char (lower_char c) = lower_char c.
Proof. destruct c as [[] [] [] [] [] [] [] []]; reflexivity. Qed.

Lemma py_lower_idem (s : string) : py_lower (py_lower s) = py_lower s.
Proof.
  induction s as [|c s IH]; [reflexivity|].
  cbn [py_lower]. now rewrite lower_char_idem, IH.
Qed.

Lemma requested_format_insert (arguments : gmap string PyVal) (v : PyVal) :
  requested_format (<["format" := v]> arguments) = lower_method v.
Proof.
  unfold requested_format, dict_get. now rewrite lookup_insert_eq.
Qed.

(** A request without [paper_id] is answered by the error envelope of the
    missing key, whatever its style and whatever the client would do,
    and the client is not asked. *)
Theorem handle_citation_missing_paper_id
  (provider : PyVal -> PyResult Paper) (now : datetime)
  (arguments : gmap string PyVal) :
  arguments !! "paper_id" = None ->
  exists items,
    handle_citation provider now arguments
    = ([EvLogError "Citation error: 'paper_id'"], Ret items)
    /\ one_json_item items (error_object "Error: 'paper_id'").
Proof.
  intros Hpid. exists (error_envelope "Error: 'paper_id'"). split.
  - now apply handle_no_paper_id.
  - apply error_envelope_item.
Qed.

Lemma handle_citation_missing_paper_id_witness :
  exists items,
    handle_citation interrupted_provider a_clock no_id_request
    = ([EvLogError "Citation error: 'paper_id'"], Ret items)
    /\ one_json_item items (error_object "Error: 'paper_id'").
Proof.
  apply (handle_citation_missing_paper_id interrupted_provider a_clock
           no_id_request).
  reflexivity.
Defined.

(** A [format] that is not a string - a number, a boolean, null - has
    no [lower]: the request is answered by the error envelope of the
    [AttributeError], and the client is not asked. *)
Theorem handle_citation_format_not_str
  (provider : PyVal -> PyResult Paper) (now : datetime)
  (arguments : gmap string PyVal) (pid v : PyVal) :
  arguments !! "paper_id" = Some pid ->
  arguments !! "format" = Some v ->
  (forall s, v <> VStr s) ->
  let description :=
    "'" +:+ type_name v +:+ "' object has no attribute 'lower'" in
  exists items,
    handle_citation provider now arguments
    = ([EvLogError ("Citation error: " +:+ description)], Ret items)
    /\ one_json_item items (error_object ("Error: " +:+ description)).
Proof.
  intros Hpid Hfmt Hv description.
  assert (Hreq : requested_format arguments
                 = Raise (mkExn AttributeError description)).
  { unfold requested_format, dict_get. rewrite Hfmt. cbn [default].
    destruct v as [s| | |]; [now destruct (Hv s)|reflexivity..]. }
  exists (error_envelope (generic_message (mkExn AttributeError description))).
  split.
  - apply (handle_format_raises provider now arguments pid _ Hpid Hreq).
  - apply error_envelope_item.
Qed.

Lemma handle_citation_format_not_str_witness :
  exists items,
    handle_citation fixture_provider a_clock numeric_format_request
    = ([EvLogError
          "Citation error: 'int' object has no attribute 'lower'"],
       Ret items)
    /\ one_json_item items
         (error_object "Error: 'int' object has no attribute 'lower'").
Proof.
  apply (handle_citation_format_not_str fixture_provider a_clock
           numeric_format_request (VStr "1611.03530") (VInt 3));
    [reflexivity | reflexivity | discriminate].
Defined.

(** A request without [format] is answered as the same request with the
    format [apa]. *)
Theorem handle_citation_default_format
  (provider : PyVal -> PyResult Paper) (now : datetime)
  (arguments : gmap string PyVal) :
  arguments !! "format" = None ->
  handle_citation provider now arguments
  = handle_citation provider now (<["format" := VStr "apa"]> arguments).
Proof.
  intros Hfmt. apply handle_citation_ext.
  - now rewrite lookup_insert_ne.
  - rewrite requested_format_insert.
    unfold requested_format, dict_get. now rewrite Hfmt.
Qed.

Lemma handle_citation_default_format_witness :
  handle_citation fixture_provider a_clock unknown_id_request
  = handle_citation fixture_provider a_clock
      (<["format" := VStr "apa"]> unknown_id_request).
Proof.
  apply (handle_citation_default_format fixture_provider a_clock
           unknown_id_request).
  reflexivity.
Defined.

(** The case of the letters of [format] does not matter: a request is
    answered as the same request with the format in lower case, and the
    answer names the format in lower case. *)
Theorem handle_citation_format_case
  (provider : PyVal -> PyResult Paper) (now : datetime)
  (arguments : gmap string PyVal) (s : string) :
  handle_citation provider now (<["format" := VStr s]> arguments)
  = handle_citation provider now
      (<["format" := VStr (py_lower s)]> arguments).
Proof.
  apply handle_citation_ext.
  - now rewrite !lookup_insert_ne.
  - rewrite !requested_format_insert. cbn [lower_method].
    now rewrite py_lower_idem.
Qed.

End Requests.

Section Behaviour.

(** The client is asked only for the [paper_id] of a request whose style
    is one of the six, and the renderer is called only with such a style
    and with the paper the client returned: no unknown style reaches the
    renderer through the handler. *)
Theorem handle_citation_events
  (provider : PyVal -> PyResult Paper) (now : datetime)
  (arguments : gmap string PyVal) :
  (forall pid,
      In (EvFetch pid) (fst (handle_citation provider now arguments)) ->
      arguments !! "paper_id" = Some pid
      /\ exists f, requested_format arguments = Ret f
                   /\ in_formats f = true)
  /\ (forall paper f,
        In (EvRender paper f) (fst (handle_citation provider now arguments)) ->
        In f CITATION_FORMATS
        /\ requested_format arguments = Ret f
        /\ exists pid, arguments !! "paper_id" = Some pid
                       /\ provider pid = Ret paper).
Proof.
  pose proof (handle_citation_run provider now arguments) as Hrun.
  split.
  - intros pid0 Hin.
    destruct Hrun; cbn [fst In] in Hin;
      repeat match goal with
             | H : _ \/ _ |- _ => destruct H
             | H : False |- _ => destruct H
             | H : _ = EvFetch _ |- _ => discriminate H || injection H as <-
             end; eauto.
  - intros paper0 f0 Hin.
    destruct Hrun; cbn [fst In] in Hin;
      repeat match goal with
             | H : _ \/ _ |- _ => destruct H
             | H : False |- _ => destruct H
             | H : _ = EvRender _ _ |- _ =>
                 discriminate H || injection H as <- <-
             end;
      (split; [now apply in_formats_iff|]); eauto.
Qed.

Lemma handle_citation_events_witness :
  In "chicago" CITATION_FORMATS
  /\ requested_format chicago_request = Ret "chicago"
  /\ exists pid, chicago_request !! "paper_id" = Some pid
                 /\ fixture_provider pid = Ret fixture_paper.
Proof.
  apply (proj2 (handle_citation_events fixture_provider a_clock
                  chicago_request) fixture_paper "chicago").
  vm_compute. tauto.
Defined.

(** What is raised past the handler was raised by the client, asked for
    the [paper_id] of the request, and is no [Exception]: the handler
    raises nothing of its own, neither for a missing key nor for a
    failed rendering. *)
Theorem handle_citation_raises_only_client
  (provider : PyVal -> PyResult Paper) (now : datetime)
  (arguments : gmap string PyVal) (e : Exn) :
  snd (handle_citation provider now arguments) = Raise e ->
  is_Exception (exn_class e) = false
  /\ exists pid, arguments !! "paper_id" = Some pid
                 /\ provider pid = Raise e.
Proof.
  pose proof (handle_citation_run provider now arguments) as Hrun.
  destruct Hrun; cbn [snd]; try discriminate.
  intros [= <-]. eauto.
Qed.

Lemma handle_citation_raises_only_client_witness :
  is_Exception KeyboardInterrupt = false
  /\ exists pid, fixture_request !! "paper_id" = Some pid
                 /\ interrupted_provider pid
                    = Raise (mkExn KeyboardInterrupt EmptyString).
Proof.
  apply (handle_citation_raises_only_client interrupted_provider a_clock
           fixture_request (mkExn KeyboardInterrupt EmptyString)).
  reflexivity.
Defined.

(** When the BibTeX style is asked for a paper whose first author's name
    is blank, the [IndexError] of the renderer does not leave the
    handler: it is logged and answered by an error envelope. *)
Theorem handle_citation_blank_first_author
  (provider : PyVal -> PyResult Paper) (now : datetime)
  (arguments : gmap string PyVal) (pid : PyVal) (paper : Paper)
  (a : string) (rest : list string) :
  arguments !! "paper_id" = Some pid ->
  requested_format arguments = Ret "bibtex" ->
  provider pid = Ret paper ->
  authors paper = a :: rest ->
  all_chars py_isspace a = true ->
  exists items,
    handle_citation provider now arguments
    = ([EvFetch pid; EvRender paper "bibtex";
        EvLogError "Citation error: list index out of range"],
       Ret items)
    /\ one_json_item items (error_object "Error: list index out of range").
Proof.
  intros Hpid Hfmt Hres Hauthors Hblank.
  rewrite (handle_rendered provider now arguments pid "bibtex" paper
             Hpid Hfmt eq_refl Hres).
  rewrite generate_citation_bibtex, Hauthors.
  rewrite (first_author_last_blank _ _ Hblank).
  eexists. split; [reflexivity|]. apply error_envelope_item.
Qed.

Lemma handle_citation_blank_first_author_witness :
  exists items,
    handle_citation blank_name_provider a_clock fixture_request
    = ([EvFetch (VStr "1611.03530"); EvRender blank_name_paper "bibtex";
        EvLogError "Citation error: list index out of range"],
       Ret items)
    /\ one_json_item items (error_object "Error: list index out of range").
Proof.
  apply (handle_citation_blank_first_author blank_name_provider a_clock
           fixture_request (VStr "1611.03530") blank_name_paper
           " " ["Ben B"]); reflexivity.
Defined.

(** For each of the five styles other than [bibtex], a paper the client
    returns is always rendered: the answer is the success envelope with
    the [paper_id], the style and the citation of the renderer. *)
Theorem handle_citation_success
  (provider : PyVal -> PyResult Paper) (now : datetime)
  (arguments : gmap string PyVal) (pid : PyVal) (f : string)
  (paper : Paper) :
  arguments !! "paper_id" = Some pid ->
  requested_format arguments = Ret f ->
  in_formats f = true ->
  f <> "bibtex" ->
  provider pid = Ret paper ->
  exists citation items,
    generate_citation now paper f = Ret citation
    /\ handle_citation provider now arguments
       = ([EvFetch pid; EvRender paper f], Ret items)
    /\ one_json_item items (success_object pid f citation).
Proof.
  intros Hpid Hfmt Hin Hf Hres.
  destruct (generate_citation_not_bibtex now paper f Hf) as [citation Hgen].
  exists citation, (success_envelope pid f citation).
  split; [exact Hgen|]. split.
  - rewrite (handle_rendered provider now arguments pid f paper
               Hpid Hfmt Hin Hres).
    now rewrite Hgen.
  - apply success_envelope_item.
Qed.

Lemma handle_citation_success_witness :
  exists citation items,
    generate_citation a_clock fixture_paper "chicago" = Ret citation
    /\ handle_citation fixture_provider a_clock chicago_request
       = ([EvFetch (VStr "1611.03530"); EvRender fixture_paper "chicago"],
          Ret items)
    /\ one_json_item items
         (success_object (VStr "1611.03530") "chicago" citation).
Proof.
  apply (handle_citation_success fixture_provider a_clock chicago_request
           (VStr "1611.03530") "chicago" fixture_paper);
    reflexivity || discriminate.
Defined.

Lemma generate_citation_clock (now1 now2 : datetime) (p : Paper)
  (f : string) :
  String.eqb f "harvard" = false ->
  generate_citation now1 p f = generate_citation now2 p f.
Proof. intros Hf. unfold generate_citation. now rewrite Hf. Qed.

(** Unless the style asked for is [harvard], the whole answer of the
    handler - events and envelope - is the same at any two moments. *)
Theorem handle_citation_clock
  (provider : PyVal -> PyResult Paper) (now1 now2 : datetime)
  (arguments : gmap string PyVal) :
  requested_format arguments <> Ret "harvard" ->
  handle_citation provider now1 arguments
  = handle_citation provider now2 arguments.
Proof.
  intros Hstyle.
  destruct (arguments !! "paper_id") as [pid|] eqn:Hpid.
  2: { now rewrite !(handle_no_paper_id _ _ _ Hpid). }
  destruct (requested_format arguments) as [f|e] eqn:Hfmt.
  2: { now rewrite !(handle_format_raises _ _ _ pid e Hpid Hfmt). }
  destruct (in_formats f) eqn:Hin.
  2: { now rewrite !(handle_unsupported _ _ _ pid f Hpid Hfmt Hin). }
  destruct (provider pid) as [paper|e] eqn:Hres.
  - rewrite !(handle_rendered provider _ arguments pid f paper
                Hpid Hfmt Hin Hres).
    rewrite (generate_citation_clock now1 now2); [reflexivity|].
    apply String.eqb_neq. intros ->. now destruct Hstyle.
  - now rewrite !(handle_provider_raises provider _ arguments pid f e
                    Hpid Hfmt Hin Hres).
Qed.

Lemma handle_citation_clock_witness :
  handle_citation fixture_provider (mkDate 2024 January 1) chicago_request
  = handle_citation fixture_provider (mkDate 2031 July 23) chicago_request.
Proof.
  apply (handle_citation_clock fixture_provider
           (mkDate 2024 January 1) (mkDate 2031 July 23) chicago_request).
  discriminate.
Defined.

End Behaviour.

Section AsciiText.

Lemma json_escape_char_printable (c : ascii) :
  all_chars printable (json_escape_char c) = true.
Proof. destruct c as [[] [] [] [] [] [] [] []]; reflexivity. Qed.

Lemma json_string_printable (s : string) :
  all_chars printable (json_string s) = true.
Proof.
  unfold json_string. rewrite !all_chars_app.
  assert (H : all_chars printable (json_escape s) = true).
  { induction s as [|c s IH]; [reflexivity|].
    cbn [json_escape]. now rewrite all_chars_app, json_escape_char_printable. }
  now rewrite H.
Qed.

Lemma num_char_printable (c : ascii) :
  is_num_char c = true -> printable c = true.
Proof.
  destruct c as [[] [] [] [] [] [] [] []]; try reflexivity; discriminate.
Qed.

Lemma json_value_printable (v : PyVal) :
  all_chars printable (json_value v) = true.
Proof.
  destruct v as [s|n|[]|]; cbn [json_value]; try reflexivity.
  - apply json_string_printable.
  - apply (all_chars_impl is_num_char); [exact num_char_printable|].
    apply str_of_int_num_chars.
Qed.

Lemma join_all_chars (f : ascii -> bool) (sep : string)
  (parts : list string) :
  all_chars f sep = true ->
  Forall (fun part => all_chars f part = true) parts ->
  all_chars f (join sep parts) = true.
Proof.
  intros Hsep Hparts. induction Hparts as [|x l Hx Hl IH]; [reflexivity|].
  destruct l as [|y l]; [exact Hx|].
  rewrite join_cons, !all_chars_app, Hx, Hsep. exact IH.
Qed.

(** [json.dumps] writes printable ASCII only. *)
Lemma json_dumps_printable (d : PyDict) :
  all_chars printable (json_dumps d) = true.
Proof.
  assert (Hbody : all_chars printable (join ", " (map json_member d)) = true).
  2: { unfold json_dumps. rewrite !all_chars_app, Hbody. reflexivity. }
  apply join_all_chars; [reflexivity|].
  apply Forall_map, Forall_forall. intros [k v] _. unfold json_member.
  cbn [fst snd].
  now rewrite !all_chars_app, json_string_printable, json_value_printable.
Qed.

(** Whatever the title, the names and the messages hold - quotes, line
    breaks, letters with accents - the handler returns one item of type
    [text] whose text is made of printable ASCII characters only. *)
Theorem handle_citation_text_ascii
  (provider : PyVal -> PyResult Paper) (now : datetime)
  (arguments : gmap string PyVal) (items : list TextContent) :
  snd (handle_citation provider now arguments) = Ret items ->
  exists t,
    items = [mkText "text" t] /\ all_chars printable t = true.
Proof.
  pose proof (handle_citation_run provider now arguments) as Hrun.
  destruct Hrun; cbn [snd]; intros [= <-];
    (eexists; split; [reflexivity|apply json_dumps_printable]).
Qed.

Lemma handle_citation_text_ascii_witness :
  exists t,
    [mkText "text"
       (json_dumps
          (success_object (VStr "1611.03530") "chicago"
             ("Ren" +:+ String (ascii_of_nat 233) " D. " +:+ dq
              +:+ String (ascii_of_nat 201) "tude." +:+ dq
              +:+ " arXiv preprint arXiv:2005.00001 (2020). u.")))]
    = [mkText "text" t]
    /\ all_chars printable t = true.
Proof.
  apply (handle_citation_text_ascii accent_provider a_clock chicago_request).
  reflexivity.
Defined.

Lemma format_authors_ieee_lists_all_witness :
  format_authors ["A"; "B"; "C"; "D"; "E"; "F"; "G"; "H"; "I"] "ieee"
  = "A, B, C, D, E, F, G, H, and I"
  /\ contains "E"
       (format_authors ["A"; "B"; "C"; "D"; "E"; "F"; "G"; "H"; "I"] "ieee")
     = true.
Proof.
  split.
  - apply (proj1 (format_authors_ieee_lists_all [])
             ["A"; "B"; "C"; "D"; "E"; "F"; "G"; "H"] "I").
    cbv [len Datatypes.length]. lia.
  - apply (proj2 (format_authors_ieee_lists_all
                    ["A"; "B"; "C"; "D"; "E"; "F"; "G"; "H"; "I"])).
    cbn [In]. tauto.
Defined.

End AsciiText.

Section Composition.

Lemma prefix_app_l (p s t : string) :
  String.prefix p s = true -> String.prefix p (s +:+ t) = true.
Proof.
  intros H. destruct (prefix_elim _ _ H) as [post ->].
  rewrite app_assoc. apply prefix_app.
Qed.

(** The citation of every style but [bibtex] begins with the first
    author's name, when the paper has an author. *)
Theorem citation_starts_with_first_author
  (now : datetime) (p : Paper) (f text first : string)
  (rest : list string) :
  f <> "bibtex" ->
  authors p = first :: rest ->
  generate_citation now p f = Ret text ->
  String.prefix first text = true.
Proof.
  intros Hf Hauthors.
  pose proof (format_authors_prefix_first first rest f) as Hfirst.
  unfold generate_citation. rewrite Hauthors.
  destruct (String.eqb_spec f "bibtex") as [->|_]; [contradiction|].
  repeat match goal with
         | |- context [if ?b then _ else _] => destruct b
         end;
    intros [= <-]; now apply prefix_app_l.
Qed.

Lemma citation_starts_with_first_author_witness :
  String.prefix "Zhang, Chiyuan"
    "Zhang, Chiyuan et al. (2017). Understanding Deep Learning Requires Rethinking Generalization. arXiv preprint arXiv:1611.03530. http://arxiv.org/abs/1611.03530v2"
  = true.
Proof.
  apply (citation_starts_with_first_author a_clock fixture_paper "apa"
           _ "Zhang, Chiyuan" (tl zhang_authors));
    reflexivity || discriminate.
Defined.

(** Called with a style name that is none of the six - the handler never
    does so - the renderer does not fail: it returns the plain form, with
    all authors joined by commas. *)
Theorem generate_citation_unknown_style
  (now : datetime) (p : Paper) (f : string) :
  ~ In f CITATION_FORMATS ->
  generate_citation now p f
  = Ret (join ", " (authors p) +:+ ". " +:+ title p +:+ ". arXiv:"
         +:+ short_id p +:+ ", " +:+ str_of_int (year (published p))
         +:+ ". " +:+ entry_id p).
Proof.
  intros Hnot.
  assert (Hauth : format_authors (authors p) f = join ", " (authors p)).
  { unfold format_authors. destruct (authors p) as [|x rest]; [reflexivity|].
    repeat match goal with
           | |- context [String.eqb f ?s] =>
               destruct (String.eqb_spec f s) as [->|_];
               [exfalso; apply Hnot; cbn [In CITATION_FORMATS]; tauto|]
           end.
    reflexivity. }
  unfold generate_citation. rewrite Hauth.
  repeat match goal with
         | |- context [String.eqb f ?s] =>
             destruct (String.eqb_spec f s) as [->|_];
             [exfalso; apply Hnot; cbn [In CITATION_FORMATS]; tauto|]
         end.
  reflexivity.
Qed.

Lemma generate_citation_unknown_style_witness :
  generate_citation a_clock eight_paper "BibTeX"
  = Ret "Ada A, Ben B, Cy C, Di D, Ed E, Flo F, Gus G, Hal H. T. arXiv:2005.00001, 2020. u".
Proof.
  apply (generate_citation_unknown_style a_clock eight_paper "BibTeX").
  cbn [In CITATION_FORMATS]. intros H.
  repeat destruct H as [H|H]; discriminate || exact H.
Defined.

End Composition.
